(** * LP5569 LED sequencer over a bit-banged I2C bus

    Shallow embedding of [cmd/gpio_drive_strength.c]: the software I2C
    engine ([i2c_start], [i2c_stop], [i2c_write_bit], [i2c_read_bit],
    [i2c_write_byte], [i2c_set_register]), the LP5569 programming
    protocol built on it ([lp5569_write_bulk], [lp5569_init],
    [lp5569_run_program], [lp5569_play_tape]) and the command
    orchestration ([lp5569_cmd]).

    C [int] and [uint8_t] values are integers of [Z]; the 8-bit
    truncations the C code performs ([data <<= 1] on a [uint8_t], the
    conversion of [reg + i] to a [uint8_t] parameter, the conversion of
    the lengths given to [lp5569_run_program] to its [uint8_t]
    parameters) are written out.
    Stateful code is a state-passing function [W -> A * W].  Console
    output ([printf]) is not part of the model.  The pad control
    command of the same file ([do_gpio_drive_strength]) is embedded
    as well. *)

From Stdlib Require Import ZArith List Lia Bool.
From Stdlib Require String.
Import ListNotations.
Open Scope Z_scope.

(** ** A small state monad *)

Definition M (W A : Type) : Type := W -> A * W.

Definition ret {W A : Type} (a : A) : M W A := fun w => (a, w).

Definition bind {W A B : Type} (m : M W A) (k : A -> M W B) : M W B :=
  fun w => let (a, w') := m w in k a w'.

Declare Scope m_scope.
Delimit Scope m_scope with m.
Notation "x <- c ;; k" := (bind c (fun x => k))
  (at level 61, c at next level, right associativity) : m_scope.
Notation "c ;; k" := (bind c (fun _ => k))
  (at level 61, right associativity) : m_scope.
Open Scope m_scope.

(** C truth value of an [int]: [if (ret)] is [if nonzero ret]. *)
Definition nonzero (z : Z) : bool := negb (z =? 0).

(** Equality of lists of integers, as a boolean. *)
Definition list_Z_eqb (l1 l2 : list Z) : bool :=
  if list_eq_dec Z.eq_dec l1 l2 then true else false.

(** ** The bit-banged bus (the [i2c bitbang] part of the file) *)

Module I2cBitbang.

Definition SDA_PIN : Z := 2.
Definition SCL_PIN : Z := 3.
Definition EINVAL : Z := 22.

(** [struct gpio_i2c].  The three function pointers of the C struct are
    always bound by [i2c_init] to the static functions [get_sda],
    [set_sda] and [set_scl] below, so they are called directly. *)
Record gpio_i2c : Type := mk_gpio_i2c { scl : Z; sda : Z; delay : Z }.

(** Calls that leave the program: the GPIO primitives and [udelay]. *)
Inductive event : Type :=
| EvRequest (gpio : Z)
| EvFree (gpio : Z)
| EvDirOut (gpio value : Z)
| EvDirIn (gpio : Z)
| EvGetValue (gpio : Z)
| EvUdelay (us : Z).

Definition trace : Type := list event.

Section Engine.

(** The hardware: the [int] an external call returns, as a function of
    everything that happened up to and including that call. *)
Variable env : trace -> Z.

Definition call (e : event) : M trace Z :=
  fun tr => (env (tr ++ [e]), tr ++ [e]).

Definition gpio_request (gpio : Z) : M trace Z := call (EvRequest gpio).
Definition gpio_free (gpio : Z) : M trace Z := call (EvFree gpio).
Definition gpio_direction_output (gpio value : Z) : M trace Z :=
  call (EvDirOut gpio value).
Definition gpio_direction_input (gpio : Z) : M trace Z := call (EvDirIn gpio).
Definition gpio_get_value (gpio : Z) : M trace Z := call (EvGetValue gpio).
Definition udelay (us : Z) : M trace unit :=
  fun tr => (tt, tr ++ [EvUdelay us]).

Definition gpio_write (gpio bit : Z) : M trace Z :=
  r <- gpio_direction_output gpio bit ;;
  if nonzero r then ret r else ret 0.

Definition gpio_read (gpio : Z) : M trace Z :=
  r <- gpio_direction_input gpio ;;
  if nonzero r then ret r
  else
    v <- gpio_get_value gpio ;;
    if nonzero v && negb (v =? 1) then ret (- EINVAL) else ret v.

Definition get_sda (bus : gpio_i2c) : M trace Z := gpio_read (sda bus).

Definition set_sda (bus : gpio_i2c) (bit : Z) : M trace unit :=
  _ <- gpio_write (sda bus) bit ;; ret tt.

Definition set_scl (bus : gpio_i2c) (bit : Z) : M trace unit :=
  _ <- gpio_write (scl bus) bit ;; ret tt.

Definition i2c_start (bus : gpio_i2c) : M trace unit :=
  let d := delay bus in
  udelay d ;;
  set_sda bus 1 ;;
  udelay d ;;
  set_scl bus 1 ;;
  udelay d ;;
  set_sda bus 0 ;;
  udelay d.

Definition i2c_stop (bus : gpio_i2c) : M trace unit :=
  let d := delay bus in
  set_scl bus 0 ;;
  udelay d ;;
  set_sda bus 0 ;;
  udelay d ;;
  set_scl bus 1 ;;
  udelay d ;;
  set_sda bus 1 ;;
  udelay d.

Definition i2c_write_bit (bus : gpio_i2c) (bit : Z) : M trace unit :=
  let d := delay bus in
  set_scl bus 0 ;;
  udelay d ;;
  set_sda bus bit ;;
  udelay d ;;
  set_scl bus 1 ;;
  udelay (2 * d).

Definition i2c_read_bit (bus : gpio_i2c) : M trace Z :=
  let d := delay bus in
  set_scl bus 1 ;;
  udelay d ;;
  value <- get_sda bus ;;
  udelay d ;;
  set_scl bus 0 ;;
  udelay (2 * d) ;;
  ret value.

Definition i2c_sda_high (bus : gpio_i2c) : M trace unit :=
  let d := delay bus in
  set_scl bus 0 ;;
  udelay d ;;
  set_sda bus 1 ;;
  udelay d ;;
  _ <- get_sda bus ;;
  ret tt.

(** [for (j = 0; j < 8; j++) { i2c_write_bit(bus, data & 0x80); data <<= 1; }]
    with [n] the iterations still to run; [data] is a [uint8_t], so the
    shift drops the bit that leaves the byte. *)
Fixpoint write_byte_loop (bus : gpio_i2c) (n : nat) (data : Z) : M trace unit :=
  match n with
  | O => ret tt
  | S n' =>
      i2c_write_bit bus (Z.land data 0x80) ;;
      write_byte_loop bus n' (Z.shiftl data 1 mod 256)
  end.

Definition i2c_write_byte (bus : gpio_i2c) (data : Z) : M trace Z :=
  write_byte_loop bus 8 data ;;
  udelay (delay bus) ;;
  i2c_sda_high bus ;;
  nack <- i2c_read_bit bus ;;
  ret nack.

Definition i2c_init : M trace (Z * gpio_i2c) :=
  let bus := {| scl := SCL_PIN; sda := SDA_PIN; delay := 5 |} in
  r <- gpio_request (scl bus) ;;
  if nonzero r then ret (r, bus)
  else
    r <- gpio_request (sda bus) ;;
    if nonzero r then
      _ <- gpio_free (scl bus) ;; ret (r, bus)
    else ret (0, bus).

Definition i2c_deinit (bus : gpio_i2c) : M trace Z :=
  r <- gpio_free (scl bus) ;;
  if nonzero r then ret r
  else
    r <- gpio_free (sda bus) ;;
    if nonzero r then ret r else ret 0.

Definition i2c_set_register (bus : gpio_i2c) (addr reg val : Z) : M trace Z :=
  i2c_start bus ;;
  r <- i2c_write_byte bus addr ;;
  if nonzero r then i2c_stop bus ;; ret (-1)
  else
    r <- i2c_write_byte bus reg ;;
    if nonzero r then i2c_stop bus ;; ret (-1)
    else
      r <- i2c_write_byte bus val ;;
      if nonzero r then i2c_stop bus ;; ret (-1)
      else i2c_stop bus ;; ret 0.

End Engine.

End I2cBitbang.

(** ** The LP5569 protocol and the command (the [Control LP5569 over i2c] part) *)

Module Lp5569.

(** What the chip code calls and does not define: the three functions
    declared in [i2c_bitbang.h], [udelay], and U-Boot's
    [cmd_process_error] (not in this file of the repository; it is kept
    as a parameter, the command table argument dropped).  [W] is the
    state of the world, [B] the bus handle ([struct gpio_i2c]). *)
Class Board (W B : Type) : Type := {
  i2c_init : M W (Z * B);
  i2c_deinit : B -> M W Z;
  i2c_set_register : B -> Z -> Z -> Z -> M W Z;
  udelay : Z -> M W unit;
  cmd_process_error : Z -> Z
}.

Definition LP5569_MAX_PROGRAM_LEN : Z := 32.
Definition LP5569_MEM_PROGRAM_LOCATION : Z := 0x00.
Definition LP5569_MEM_LEDMUX_LOCATION : Z := 0x10.
Definition LP5569_I2C_ADDR : Z := 0x64.

Definition LP5569_REG_CONFIG : Z := 0x00.
Definition LP5569_REG_MISC : Z := 0x2F.
Definition LP5569_REG_RESET : Z := 0x3F.
Definition LP5569_REG_ENGINE1_PROG_START : Z := 0x4B.
Definition LP5569_REG_LED_ENGINE_CONTROL1 : Z := 0x01.
Definition LP5569_REG_LED_ENGINE_CONTROL2 : Z := 0x02.
Definition LP5569_REG_PROG_MEM_PAGE_SELECT : Z := 0x4F.
Definition LP5569_REG_PROGRAM_MEM_00 : Z := 0x50.

Definition LP5569_REG_LED0_CURRENT : Z := 0x22.
Definition LP5569_REG_LED1_CURRENT : Z := 0x23.
Definition LP5569_REG_LED2_CURRENT : Z := 0x24.
Definition LP5569_REG_LED3_CURRENT : Z := 0x25.
Definition LP5569_REG_LED4_CURRENT : Z := 0x26.
Definition LP5569_REG_LED5_CURRENT : Z := 0x27.
Definition LP5569_REG_LED6_CURRENT : Z := 0x28.
Definition LP5569_REG_LED7_CURRENT : Z := 0x29.
Definition LP5569_REG_LED8_CURRENT : Z := 0x2A.

Definition RED_CURRENT : Z := 10.
Definition GREEN_CURRENT : Z := 3.
Definition BLUE_CURRENT : Z := 8.

(** [led_mux_tapes[2][32]]: twelve bytes are given for each tape, C
    fills the rest of each row with zeros. *)
Definition led_mux_tapes : list (list Z) :=
  [ [0x00; 0x02; 0x00; 0x20; 0x00; 0x80; 0x00; 0x04; 0x00; 0x10; 0x01; 0x00]
      ++ repeat 0 20;
    [0x00; 0x49; 0x00; 0x49; 0x00; 0x49; 0x00; 0x49; 0x00; 0x49; 0x00; 0x49]
      ++ repeat 0 20 ].

(** [led_prog[32]]: seven two-byte instructions, the sixteen zeros of
    the "Fill with 0s" lines, and the last two bytes, which C sets to
    zero. *)
Definition led_prog : list Z :=
  [0x9c; LP5569_MEM_LEDMUX_LOCATION; 0x9c; 0x95; 0x40; 0xff; 0x7E; 0x00;
   0x40; 0x00; 0x9D; 0x80; 0xA0; 0x02]
    ++ repeat 0x00 16
    ++ repeat 0 2.

Section Chip.

Context {W B : Type} {board : Board W B}.

Definition lp5569_set_register (bus : B) (reg val : Z) : M W Z :=
  i2c_set_register bus LP5569_I2C_ADDR reg val.

(** [for (int i = 0; i < buf_size; i++)] with [n] the iterations still
    to run.  [reg + i] is an [int] that the call converts to the
    [uint8_t] register parameter.  [buf[i]] is read with a default,
    which is never used when [buf_size] is the length of [buf]. *)
Fixpoint write_bulk_loop (bus : B) (reg : Z) (buf : list Z) (i : Z) (n : nat)
  : M W Z :=
  match n with
  | O => ret 0
  | S n' =>
      r <- lp5569_set_register bus ((reg + i) mod 256) (nth (Z.to_nat i) buf 0) ;;
      if nonzero r then ret r
      else write_bulk_loop bus reg buf (i + 1) n'
  end.

Definition lp5569_write_bulk (bus : B) (reg : Z) (buf : list Z) (buf_size : Z)
  : M W Z :=
  write_bulk_loop bus reg buf 0 (Z.to_nat buf_size).

Definition lp5569_engine_load_program (bus : B) : M W Z :=
  lp5569_set_register bus LP5569_REG_LED_ENGINE_CONTROL2 0x54.

Definition lp5569_engine_halt (bus : B) : M W Z :=
  lp5569_set_register bus LP5569_REG_LED_ENGINE_CONTROL2 0x00.

Definition lp5569_engine_run (bus : B) : M W Z :=
  r <- lp5569_set_register bus LP5569_REG_LED_ENGINE_CONTROL2 0x80 ;;
  if nonzero r then ret r
  else
    r <- lp5569_set_register bus LP5569_REG_LED_ENGINE_CONTROL1 0x80 ;;
    if nonzero r then ret r else ret 0.

Definition lp5569_mem_page_select (bus : B) (is_mux : bool) : M W Z :=
  let page := if is_mux then 0x01 else 0x00 in
  lp5569_set_register bus LP5569_REG_PROG_MEM_PAGE_SELECT page.

(** One step of the straight-line functions below:
    [ret = f(...); if (ret) return ret;] followed by the rest. *)
Definition or_return (c : M W Z) (k : M W Z) : M W Z :=
  r <- c ;; if nonzero r then ret r else k.

Definition lp5569_init (bus : B) : M W Z :=
  or_return (lp5569_set_register bus LP5569_REG_RESET 0xFF) (
  or_return (lp5569_set_register bus LP5569_REG_CONFIG (Z.shiftl 1 6)) (
  or_return (lp5569_set_register bus LP5569_REG_MISC
               (Z.lor (Z.lor (Z.shiftl 1 0) (Z.shiftl 3 3)) (Z.shiftl 1 6))) (
  or_return (lp5569_set_register bus LP5569_REG_ENGINE1_PROG_START 0x00) (
  or_return (lp5569_set_register bus LP5569_REG_LED0_CURRENT RED_CURRENT) (
  or_return (lp5569_set_register bus LP5569_REG_LED3_CURRENT RED_CURRENT) (
  or_return (lp5569_set_register bus LP5569_REG_LED6_CURRENT RED_CURRENT) (
  or_return (lp5569_set_register bus LP5569_REG_LED1_CURRENT GREEN_CURRENT) (
  or_return (lp5569_set_register bus LP5569_REG_LED4_CURRENT GREEN_CURRENT) (
  or_return (lp5569_set_register bus LP5569_REG_LED7_CURRENT GREEN_CURRENT) (
  or_return (lp5569_set_register bus LP5569_REG_LED2_CURRENT BLUE_CURRENT) (
  or_return (lp5569_set_register bus LP5569_REG_LED5_CURRENT BLUE_CURRENT) (
  or_return (lp5569_set_register bus LP5569_REG_LED8_CURRENT BLUE_CURRENT) (
  ret 0))))))))))))).

(** The two lengths are [uint8_t] parameters: whatever length the
    function is called with, it sees that length modulo 256. *)
Definition lp5569_run_program (bus : B)
    (led_mux_buf : list Z) (led_mux_buf_len : Z)
    (prog_buf : list Z) (prog_buf_len : Z) : M W Z :=
  let led_mux_buf_len := led_mux_buf_len mod 256 in
  let prog_buf_len := prog_buf_len mod 256 in
  if (led_mux_buf_len >? LP5569_MAX_PROGRAM_LEN)
     || (prog_buf_len >? LP5569_MAX_PROGRAM_LEN)
  then ret (-1)
  else
    or_return (lp5569_engine_load_program bus) (
    or_return (lp5569_mem_page_select bus true) (
    or_return (lp5569_write_bulk bus LP5569_REG_PROGRAM_MEM_00
                 led_mux_buf led_mux_buf_len) (
    or_return (lp5569_mem_page_select bus false) (
    or_return (lp5569_write_bulk bus LP5569_REG_PROGRAM_MEM_00
                 prog_buf prog_buf_len) (
    or_return (lp5569_engine_halt bus) (
    or_return (lp5569_engine_run bus) (
    ret 0))))))).

(** [sizeof (led_mux_tapes) / LP5569_MAX_PROGRAM_LEN] is [64 / 32];
    [sizeof (led_prog)] is [32]. *)
Definition lp5569_play_tape (bus : B) (tape_index : Z) : M W Z :=
  if tape_index >=? (2 * 32) / LP5569_MAX_PROGRAM_LEN then ret (-1)
  else
    r <- lp5569_run_program bus
           (nth (Z.to_nat tape_index) led_mux_tapes [])
           LP5569_MAX_PROGRAM_LEN
           led_prog 32 ;;
    if nonzero r then ret r else ret 0.

(** The retry loop of [lp5569_cmd]:
    [for (i = 0; i < 15; i++) { if ((ret = lp5569_init(..)) != 0) udelay(100 * 1000); else break; }]
    with [n] the iterations still to run and [r0] the value [ret] holds. *)
Fixpoint init_retry_loop (bus : B) (n : nat) (r0 : Z) : M W Z :=
  match n with
  | O => ret r0
  | S n' =>
      r <- lp5569_init bus ;;
      if nonzero r then udelay (100 * 1000) ;; init_retry_loop bus n' r
      else ret r
  end.

(** [ret2 = i2c_deinit(&gpio_i2c) != 0]: the comparison binds tighter
    than the assignment, so [ret2] is 0 or 1. *)
Definition lp5569_cmd (tape_index : Z) : M W Z :=
  ib <- i2c_init ;;
  let (r, gpio_i2c) := (ib : Z * B) in
  if nonzero r then ret (cmd_process_error r)
  else
    r <- init_retry_loop gpio_i2c 15 r ;;
    r <- (if nonzero r then ret r else lp5569_play_tape gpio_i2c tape_index) ;;
    d <- i2c_deinit gpio_i2c ;;
    let ret2 := if nonzero d then 1 else 0 in
    if nonzero ret2
    then ret (cmd_process_error (if nonzero r then r else ret2))
    else ret 0.

Definition do_lp5569 : M W Z := lp5569_cmd 0.

End Chip.

End Lp5569.

(** ** The two boards the chip code runs on *)

(** The real board: the chip code linked with the bit-banged bus. *)
Definition gpio_board (env : I2cBitbang.trace -> Z) (cpe : Z -> Z)
  : Lp5569.Board I2cBitbang.trace I2cBitbang.gpio_i2c :=
  {| Lp5569.i2c_init := I2cBitbang.i2c_init env;
     Lp5569.i2c_deinit := I2cBitbang.i2c_deinit env;
     Lp5569.i2c_set_register := I2cBitbang.i2c_set_register env;
     Lp5569.udelay := I2cBitbang.udelay;
     Lp5569.cmd_process_error := cpe |}.

(** A recording bus at the interface of [i2c_bitbang.h]: every call is
    logged, and its result is chosen by [env] from the log so far. *)
Module Mock.

Inductive event : Type :=
| Init
| Deinit
| SetRegister (addr reg val : Z)
| Udelay (us : Z).

Abbreviation log := (list event).

Definition call (env : log -> Z) (e : event) : M log Z :=
  fun l => (env (l ++ [e]), l ++ [e]).

Definition board (env : log -> Z) (cpe : Z -> Z) : Lp5569.Board log unit :=
  {| Lp5569.i2c_init := r <- call env Init ;; ret (r, tt);
     Lp5569.i2c_deinit := fun _ => call env Deinit;
     Lp5569.i2c_set_register := fun _ addr reg val => call env (SetRegister addr reg val);
     Lp5569.udelay := fun us l => (tt, l ++ [Udelay us]);
     Lp5569.cmd_process_error := cpe |}.

(** A write to a register of the LP5569. *)
Definition W (reg val : Z) : event := SetRegister Lp5569.LP5569_I2C_ADDR reg val.

Definition is_reset_write (e : event) : bool :=
  match e with
  | SetRegister _ reg _ => reg =? Lp5569.LP5569_REG_RESET
  | _ => false
  end.

Definition is_retry_delay (e : event) : bool :=
  match e with
  | Udelay us => us =? 100 * 1000
  | _ => false
  end.

Definition is_load_write (e : event) : bool :=
  match e with
  | SetRegister _ reg val =>
      (reg =? Lp5569.LP5569_REG_LED_ENGINE_CONTROL2) && (val =? 0x54)
  | _ => false
  end.

(** Every attempt of [lp5569_init] starts with the write to the reset
    register, and nothing else writes there. *)
Definition init_attempts (l : log) : nat := length (filter is_reset_write l).
Definition retry_delays (l : log) : nat := length (filter is_retry_delay l).
Definition playback_started (l : log) : bool := existsb is_load_write l.

(** A chip that refuses every register write until [k] retry delays have
    passed, on a bus that can always be acquired and released. *)
Definition settles_after (k : nat) (l : log) : Z :=
  match last l Init with
  | SetRegister _ _ _ => if (retry_delays l <? k)%nat then -1 else 0
  | _ => 0
  end.

(** No chip on the bus: every register write fails, the bus itself can
    be acquired and released. *)
Definition absent_chip (l : log) : Z :=
  match last l Init with
  | SetRegister _ _ _ => -1
  | _ => 0
  end.

(** Every call succeeds. *)
Definition healthy (l : log) : Z := 0.

(** The chip is set up, then refuses to enter load-program mode. *)
Definition refuses_load (l : log) : Z :=
  match last l Init with
  | SetRegister _ reg val =>
      if (reg =? Lp5569.LP5569_REG_LED_ENGINE_CONTROL2) && (val =? 0x54)
      then -1 else 0
  | _ => 0
  end.

End Mock.

(** ** The register writes the chip code is expected to make *)

Module Expected.

Import Lp5569.

(** [(reg, val)] pairs of a bulk write: byte [i] goes to the 8-bit
    register number [(base + i) mod 256]. *)
Fixpoint bulk_from (base : Z) (i : Z) (buf : list Z) : list (Z * Z) :=
  match buf with
  | [] => []
  | v :: buf' => ((base + i) mod 256, v) :: bulk_from base (i + 1) buf'
  end.

Definition bulk (base : Z) (buf : list Z) : list (Z * Z) := bulk_from base 0 buf.

(** The same without the 8-bit wrap: byte [i] at [base + i]. *)
Fixpoint bulk_plain_from (base : Z) (i : Z) (buf : list Z) : list (Z * Z) :=
  match buf with
  | [] => []
  | v :: buf' => (base + i, v) :: bulk_plain_from base (i + 1) buf'
  end.

Definition bulk_plain (base : Z) (buf : list Z) : list (Z * Z) :=
  bulk_plain_from base 0 buf.

Definition init_writes : list (Z * Z) :=
  [ (0x3F, 0xFF); (0x00, 0x40); (0x2F, 0x59); (0x4B, 0x00);
    (0x22, 10); (0x25, 10); (0x28, 10);
    (0x23, 3); (0x26, 3); (0x29, 3);
    (0x24, 8); (0x27, 8); (0x2A, 8) ].

(** load, page 1, mux bytes, page 0, program bytes, halt, run, free run. *)
Definition program_writes (mux prog : list Z) : list (Z * Z) :=
  [ (0x02, 0x54); (0x4F, 0x01) ]
    ++ bulk_plain 0x50 mux
    ++ [ (0x4F, 0x00) ]
    ++ bulk_plain 0x50 prog
    ++ [ (0x02, 0x00); (0x02, 0x80); (0x01, 0x80) ].

Definition events (ws : list (Z * Z)) : Mock.log :=
  map (fun w => Mock.W (fst w) (snd w)) ws.

(** Register writes made strictly in order, the first failure ending
    the sequence and being returned. *)
Fixpoint write_in_order {W B : Type} {board : Board W B} (bus : B)
    (ws : list (Z * Z)) : M W Z :=
  match ws with
  | [] => ret 0
  | w :: ws' =>
      or_return (lp5569_set_register bus (fst w) (snd w)) (write_in_order bus ws')
  end.

End Expected.

(** ** What the wire sees *)

Module Wire.

Import I2cBitbang.

(** Modelled from the spec: [gpio_direction_output] belongs to U-Boot's
    GPIO layer, which is not in the file; the pin-write primitive treats
    any nonzero value as logic high. *)
Definition logic_level (value : Z) : Z := if value =? 0 then 0 else 1.

(** The arguments of the [n] calls of [i2c_write_bit] that
    [write_byte_loop] makes, in order. *)
Fixpoint write_bit_args (n : nat) (data : Z) : list Z :=
  match n with
  | O => []
  | S n' => Z.land data 0x80 :: write_bit_args n' (Z.shiftl data 1 mod 256)
  end.

(** The bits of a byte, bit 7 first. *)
Definition msb_first_bits (data : Z) : list Z :=
  map (fun k => if Z.testbit data k then 1 else 0) [7; 6; 5; 4; 3; 2; 1; 0].

Fixpoint for_each {W A : Type} (f : A -> M W unit) (l : list A) : M W unit :=
  match l with
  | [] => ret tt
  | a :: l' => f a ;; for_each f l'
  end.

(** The values handed to the pin-write primitive for the data line. *)
Fixpoint sda_values (bus : gpio_i2c) (evs : trace) : list Z :=
  match evs with
  | [] => []
  | EvDirOut gpio value :: evs' =>
      if gpio =? sda bus then value :: sda_values bus evs'
      else sda_values bus evs'
  | _ :: evs' => sda_values bus evs'
  end.

(** The levels the master last drove on the two lines, and the start
    and stop conditions seen so far: a start is the data line falling
    while the clock is high, a stop is the data line rising while the
    clock is high. *)
Record lines : Type := mk_lines {
  scl_high : bool;
  sda_high : bool;
  starts : nat;
  stops : nat
}.

Definition idle : lines :=
  {| scl_high := true; sda_high := true; starts := 0; stops := 0 |}.

Definition observe (bus : gpio_i2c) (st : lines) (e : event) : lines :=
  match e with
  | EvDirOut gpio value =>
      let high := negb (value =? 0) in
      if gpio =? scl bus then
        {| scl_high := high; sda_high := sda_high st;
           starts := starts st; stops := stops st |}
      else if gpio =? sda bus then
        {| scl_high := scl_high st; sda_high := high;
           starts := if scl_high st && sda_high st && negb high
                     then S (starts st) else starts st;
           stops := if scl_high st && negb (sda_high st) && high
                    then S (stops st) else stops st |}
      else st
  | _ => st
  end.

Definition scan (bus : gpio_i2c) (st : lines) (evs : trace) : lines :=
  fold_left (observe bus) evs st.

Definition start_events (bus : gpio_i2c) : trace :=
  let d := delay bus in
  [ EvUdelay d; EvDirOut (sda bus) 1; EvUdelay d; EvDirOut (scl bus) 1;
    EvUdelay d; EvDirOut (sda bus) 0; EvUdelay d ].

Definition stop_events (bus : gpio_i2c) : trace :=
  let d := delay bus in
  [ EvDirOut (scl bus) 0; EvUdelay d; EvDirOut (sda bus) 0; EvUdelay d;
    EvDirOut (scl bus) 1; EvUdelay d; EvDirOut (sda bus) 1; EvUdelay d ].

Definition write_bit_events (bus : gpio_i2c) (bit : Z) : trace :=
  let d := delay bus in
  [ EvDirOut (scl bus) 0; EvUdelay d; EvDirOut (sda bus) bit; EvUdelay d;
    EvDirOut (scl bus) 1; EvUdelay (2 * d) ].

(** The events after the eight data bits: the settle delay, the release
    of the data line with its read-back [rd1], and the acknowledgment
    clock with its sample [rd2]. *)
Definition ack_events (bus : gpio_i2c) (rd1 rd2 : trace) : trace :=
  let d := delay bus in
  [ EvUdelay d; EvDirOut (scl bus) 0; EvUdelay d; EvDirOut (sda bus) 1; EvUdelay d ]
    ++ rd1
    ++ [ EvDirOut (scl bus) 1; EvUdelay d ]
    ++ rd2
    ++ [ EvUdelay d; EvDirOut (scl bus) 0; EvUdelay (2 * d) ].

Definition byte_events (bus : gpio_i2c) (data : Z) (rd1 rd2 : trace) : trace :=
  flat_map (write_bit_events bus) (write_bit_args 8 data) ++ ack_events bus rd1 rd2.

(** Events that drive no line. *)
Definition passive (e : event) : Prop :=
  match e with
  | EvDirOut _ _ => False
  | _ => True
  end.

(** The bytes between the start and the stop of a register write: one,
    two or three of them, each followed by its acknowledgment clock. *)
Inductive bytes_on_wire (bus : gpio_i2c) : trace -> Prop :=
| one_byte (d : Z) (ra rb : trace) :
    Forall passive ra -> Forall passive rb ->
    bytes_on_wire bus (byte_events bus d ra rb)
| more_bytes (d : Z) (ra rb rest : trace) :
    Forall passive ra -> Forall passive rb ->
    bytes_on_wire bus rest ->
    bytes_on_wire bus (byte_events bus d ra rb ++ rest).

(** The bus [i2c_init] sets up. *)
Definition bus0 : gpio_i2c := {| scl := SCL_PIN; sda := SDA_PIN; delay := 5 |}.

Definition get_values (evs : trace) : nat :=
  length (filter (fun e => match e with EvGetValue _ => true | _ => false end) evs).

(** A device that acknowledges every byte but the [k]-th one of the
    run: each byte samples the data line twice, in [i2c_sda_high] and
    in [i2c_read_bit], and the second sample is the acknowledgment. *)
Definition nack_at (k : nat) (tr : trace) : Z :=
  match last tr (EvUdelay 0) with
  | EvGetValue _ => if (get_values tr =? 2 * k)%nat then 1 else 0
  | _ => 0
  end.

(** No device: the released data line is read high at every sample. *)
Definition no_device (tr : trace) : Z :=
  match last tr (EvUdelay 0) with
  | EvGetValue _ => 1
  | _ => 0
  end.

End Wire.

(** ** Observations on a run *)

Module Observe.

Import I2cBitbang.

(** A computation on a log adds [evs] to it, and [evs] satisfies [I]
    while the result satisfies [Q]. *)
Definition emits {E A : Type} (I : list E -> Prop) (Q : A -> Prop)
    (m : M (list E) A) : Prop :=
  forall tr, exists evs, snd (m tr) = tr ++ evs /\ I evs /\ Q (fst (m tr)).

Definition any {A : Type} (a : A) : Prop := True.

Definition zero_or_minus_one (r : Z) : Prop := r = 0 \/ r = -1.

(** The microseconds asked of [udelay]. *)
Fixpoint total_delay (evs : trace) : Z :=
  match evs with
  | [] => 0
  | EvUdelay us :: evs' => us + total_delay evs'
  | _ :: evs' => total_delay evs'
  end.

(** Rising edges of the clock line as the master drives it, [high]
    being its level before [evs]. *)
Fixpoint clock_rises (bus : gpio_i2c) (high : bool) (evs : trace) : nat :=
  match evs with
  | [] => 0
  | EvDirOut gpio value :: evs' =>
      if gpio =? scl bus then
        ((if negb high && nonzero value then 1 else 0)
         + clock_rises bus (nonzero value) evs')%nat
      else clock_rises bus high evs'
  | _ :: evs' => clock_rises bus high evs'
  end.

(** The level of the clock line after [evs]. *)
Fixpoint clock_after (bus : gpio_i2c) (high : bool) (evs : trace) : bool :=
  match evs with
  | [] => high
  | EvDirOut gpio value :: evs' =>
      if gpio =? scl bus then clock_after bus (nonzero value) evs'
      else clock_after bus high evs'
  | _ :: evs' => clock_after bus high evs'
  end.

(** An event that only concerns the two pins of the bus, or a delay of
    the lengths the code uses. *)
Definition on_bus (bus : gpio_i2c) (e : event) : Prop :=
  match e with
  | EvRequest gpio => gpio = scl bus \/ gpio = sda bus
  | EvFree gpio => gpio = scl bus \/ gpio = sda bus
  | EvDirOut gpio _ => gpio = scl bus \/ gpio = sda bus
  | EvDirIn gpio => gpio = sda bus
  | EvGetValue gpio => gpio = sda bus
  | EvUdelay us => us = delay bus \/ us = 2 * delay bus \/ us = 100 * 1000
  end.

(** Events that neither request nor free a pin. *)
Definition keeps_pins (e : event) : Prop :=
  match e with
  | EvRequest _ => False
  | EvFree _ => False
  | _ => True
  end.

(** From lines that are both high, [evs] brings both lines back high
    with as many stop conditions as start conditions. *)
Definition balanced (bus : gpio_i2c) (evs : trace) : Prop :=
  forall st,
    Wire.scl_high st = true -> Wire.sda_high st = true ->
    Wire.scl_high (Wire.scan bus st evs) = true
    /\ Wire.sda_high (Wire.scan bus st evs) = true
    /\ (Wire.starts (Wire.scan bus st evs) + Wire.stops st =
        Wire.stops (Wire.scan bus st evs) + Wire.starts st)%nat.

(** Two boards that may differ only in what [gpio_direction_output]
    returns. *)
Definition same_inputs (env1 env2 : trace -> Z) : Prop :=
  forall h e,
    (forall gpio value, e <> EvDirOut gpio value) ->
    env1 (h ++ [e]) = env2 (h ++ [e]).

(** The pins held after the events [evs] that follow the history
    [pre]: a request that returned 0 takes the pin, a free that
    returned 0 gives it back. *)
Fixpoint held (env : trace -> Z) (pre evs : trace) (pins : list Z) : list Z :=
  match evs with
  | [] => pins
  | e :: evs' =>
      let pins' :=
        match e with
        | EvRequest gpio =>
            if env (pre ++ [e]) =? 0 then gpio :: pins else pins
        | EvFree gpio =>
            if env (pre ++ [e]) =? 0 then remove Z.eq_dec gpio pins else pins
        | _ => pins
        end in
      held env (pre ++ [e]) evs' pins'
  end.

(** What one call of [gpio_read] on the data pin adds to the trace. *)
Definition sample (bus : gpio_i2c) (rd : trace) : Prop :=
  rd = [EvDirIn (sda bus)] \/ rd = [EvDirIn (sda bus); EvGetValue (sda bus)].

(** [k] bytes on the wire, each with its acknowledgment clock. *)
Inductive wire_bytes (bus : gpio_i2c) : nat -> trace -> Prop :=
| wire_none : wire_bytes bus 0 []
| wire_byte (d : Z) (ra rb : trace) (k : nat) (rest : trace) :
    sample bus ra -> sample bus rb ->
    wire_bytes bus k rest ->
    wire_bytes bus (S k) (Wire.byte_events bus d ra rb ++ rest).

(** On the recording bus: a chip write or a delay, not the acquisition
    or the release of the bus. *)
Definition chip_event (e : Mock.event) : Prop :=
  match e with
  | Mock.Init => False
  | Mock.Deinit => False
  | _ => True
  end.

(** What every bus transaction keeps: it stays on the two pins, leaves
    pin ownership alone and balances start and stop conditions. *)
Definition disciplined (bus : gpio_i2c) (evs : trace) : Prop :=
  Forall (on_bus bus) evs /\ Forall keeps_pins evs /\ balanced bus evs.

(** A board on which every [gpio_direction_output] reports the error
    -5 and every other call answers as [env] does. *)
Definition failing_outputs (env : trace -> Z) (tr : trace) : Z :=
  match last tr (EvUdelay 0) with
  | EvDirOut _ _ => -5
  | _ => env tr
  end.

(** A board on which the pins cannot be switched to input. *)
Definition failing_inputs (tr : trace) : Z :=
  match last tr (EvUdelay 0) with
  | EvDirIn _ => -5
  | _ => 0
  end.

(** On the recording bus: no chip answers and the bus cannot be
    released. *)
Definition absent_chip_stuck_bus (l : Mock.log) : Z :=
  match last l Mock.Init with
  | Mock.SetRegister _ _ _ => -1
  | Mock.Deinit => -16
  | _ => 0
  end.

End Observe.

(** ** Pad control (the [GPIO driver strength] part of the file) *)

Module PadCtrl.

(** Accesses to the pad control registers. *)
Inductive event : Type :=
| Readl (addr : Z)
| Writel (val addr : Z).

(** A bit-field of [width] bits whose lowest bit is bit [lo] of the
    32-bit word.  [struct _bcm2835_gpio_padctrl_bits] shares its
    storage with [val]; its fields are laid out from the least
    significant bit on, as GCC does for the little-endian ARM this
    board is, and as the PM_PADS register the source points to is:
    drive in bits 2..0, hyst in bit 3, slew in bit 4, reserved in bits
    23..5, password in bits 31..24. *)
Definition field_get (val lo width : Z) : Z :=
  Z.land (Z.shiftr val lo) (Z.ones width).

(** Storing into a bit-field keeps the low [width] bits of the value
    stored and leaves the other bits of the word alone. *)
Definition field_set (val lo width x : Z) : Z :=
  Z.lor (Z.ldiff val (Z.shiftl (Z.ones width) lo))
        (Z.shiftl (Z.land x (Z.ones width)) lo).

Definition get_drive (val : Z) : Z := field_get val 0 3.
Definition get_hyst (val : Z) : Z := field_get val 3 1.
Definition get_slew (val : Z) : Z := field_get val 4 1.
Definition get_reserved (val : Z) : Z := field_get val 5 19.
Definition get_password (val : Z) : Z := field_get val 24 8.

Definition set_drive (val x : Z) : Z := field_set val 0 3 x.
Definition set_hyst (val x : Z) : Z := field_set val 3 1 x.
Definition set_slew (val x : Z) : Z := field_set val 4 1 x.
Definition set_password (val x : Z) : Z := field_set val 24 8 x.

(** The [int] an [unsigned long] becomes when it is assigned to one:
    the low 32 bits, read as a signed number. *)
Definition to_int (u : Z) : Z := (u + 2 ^ 31) mod 2 ^ 32 - 2 ^ 31.

Section Pads.

(** [rpi_pm_base], U-Boot's [dectoul] and [CMD_RET_USAGE] are not in
    the file; [env] is the hardware: what a [readl] returns, given the
    accesses so far. *)
Variable rpi_pm_base : Z.
Variable dectoul : String.string -> Z.
Variable CMD_RET_USAGE : Z.
Variable env : list event -> Z.

Definition BCM283X_PADCTRL_ADDRESS : Z := rpi_pm_base + 0x2c.

(** [(uint32_t* )BCM283X_PADCTRL_ADDRESS + num]: pointer arithmetic in
    units of four bytes. *)
Definition padctrl_addr (num : Z) : Z := BCM283X_PADCTRL_ADDRESS + 4 * num.

(** [padctrl->val = readl(padctrl_addr)]; the new [val] is returned. *)
Definition print_pad_value (num : Z) : M (list event) Z :=
  fun tr =>
    let tr' := tr ++ [Readl (padctrl_addr num)] in
    (env tr', tr').

(** [padctrl->bits.password = 0x5a; writel(padctrl->val, padctrl_addr)];
    the new [val] is returned. *)
Definition set_pad_value (num : Z) (val : Z) : M (list event) Z :=
  let val' := set_password val 0x5a in
  fun tr => (val', tr ++ [Writel val' (padctrl_addr num)]).

Definition out_of (lo hi x : Z) : bool := (x <? lo) || (x >? hi).

(** [dectoul(argv[i], NULL)] assigned to an [int].  [argv[i]] is read
    with a default, which is never used when [argc] is 5 and [argv] has
    [argc] entries. *)
Definition int_arg (argv : list String.string) (i : nat) : Z :=
  to_int (dectoul (nth i argv String.EmptyString)).

(** [padnum] is between 0 and 3 when it is passed on as a [uint8_t]. *)
Definition do_gpio_drive_strength (argc : Z) (argv : list String.string)
  : M (list event) Z :=
  if negb (argc =? 5) then ret CMD_RET_USAGE
  else
    let padnum := int_arg argv 1 in
    let slew := int_arg argv 2 in
    let hyst := int_arg argv 3 in
    let drive := int_arg argv 4 in
    if out_of 0 3 padnum then ret (-1)
    else if out_of 0 1 slew then ret (-1)
    else if out_of 0 1 hyst then ret (-1)
    else if out_of 0 7 drive then ret (-1)
    else
      val <- print_pad_value padnum ;;
      let val := set_slew val slew in
      let val := set_hyst val hyst in
      let val := set_drive val drive in
      _ <- set_pad_value padnum val ;;
      ret 0.

End Pads.

(** A reader of leading decimal digits, standing in for [dectoul] in
    examples. *)
Fixpoint decimal_from (acc : Z) (s : String.string) : Z :=
  match s with
  | String.EmptyString => acc
  | String.String c s' =>
      let n := Z.of_nat (Ascii.nat_of_ascii c) in
      if (48 <=? n) && (n <=? 57) then decimal_from (10 * acc + (n - 48)) s'
      else acc
  end.

Definition decimal (s : String.string) : Z := decimal_from 0 s.

End PadCtrl.

(** * Properties *)

(** ** Running the state monad *)

Lemma bind_run {W A B : Type} (m : M W A) (k : A -> M W B) (w w' : W) (a : A) :
  m w = (a, w') -> bind m k w = k a w'.
Proof. intros E. unfold bind. rewrite E. reflexivity. Qed.

Lemma nonzero_false (z : Z) : nonzero z = false <-> z = 0.
Proof.
  unfold nonzero. rewrite negb_false_iff. apply Z.eqb_eq.
Qed.

Lemma nonzero_true (z : Z) : nonzero z = true <-> z <> 0.
Proof.
  unfold nonzero. rewrite negb_true_iff. apply Z.eqb_neq.
Qed.

(** A property of bytes that a boolean function decides holds for all
    of them as soon as it holds for each of the 256. *)
Lemma byte_cases (P : Z -> bool) :
  forallb P (map Z.of_nat (seq 0 256)) = true ->
  forall d, 0 <= d < 256 -> P d = true.
Proof.
  intros All d Hd.
  rewrite forallb_forall in All. apply All.
  apply in_map_iff. exists (Z.to_nat d). split.
  - lia.
  - apply in_seq. lia.
Qed.

(** ** The bit engine *)

Section BitbangFacts.

Import I2cBitbang Wire.

Variable env : trace -> Z.
Variable bus : gpio_i2c.

Lemma udelay_run (us : Z) (tr : trace) :
  udelay us tr = (tt, tr ++ [EvUdelay us]).
Proof. reflexivity. Qed.

Lemma set_sda_run (bit : Z) (tr : trace) :
  set_sda env bus bit tr = (tt, tr ++ [EvDirOut (sda bus) bit]).
Proof.
  unfold set_sda, gpio_write, gpio_direction_output, call, bind, ret.
  destruct (nonzero _); reflexivity.
Qed.

Lemma set_scl_run (bit : Z) (tr : trace) :
  set_scl env bus bit tr = (tt, tr ++ [EvDirOut (scl bus) bit]).
Proof.
  unfold set_scl, gpio_write, gpio_direction_output, call, bind, ret.
  destruct (nonzero _); reflexivity.
Qed.

Ltac step :=
  first [ erewrite bind_run by apply udelay_run
        | erewrite bind_run by apply set_sda_run
        | erewrite bind_run by apply set_scl_run ].

Ltac flatten := repeat rewrite <- app_assoc; simpl.

Lemma i2c_start_run (tr : trace) :
  i2c_start env bus tr = (tt, tr ++ start_events bus).
Proof.
  unfold i2c_start, start_events. repeat step.
  rewrite udelay_run. flatten. reflexivity.
Qed.

Lemma i2c_stop_run (tr : trace) :
  i2c_stop env bus tr = (tt, tr ++ stop_events bus).
Proof.
  unfold i2c_stop, stop_events. repeat step.
  rewrite udelay_run. flatten. reflexivity.
Qed.

Lemma i2c_write_bit_run (bit : Z) (tr : trace) :
  i2c_write_bit env bus bit tr = (tt, tr ++ write_bit_events bus bit).
Proof.
  unfold i2c_write_bit, write_bit_events. repeat step.
  rewrite udelay_run. flatten. reflexivity.
Qed.

Lemma write_byte_loop_run (n : nat) : forall (data : Z) (tr : trace),
  write_byte_loop env bus n data tr =
  (tt, tr ++ flat_map (write_bit_events bus) (write_bit_args n data)).
Proof.
  induction n as [|n IH]; intros data tr.
  - simpl. unfold ret. rewrite app_nil_r. reflexivity.
  - cbn [write_byte_loop write_bit_args flat_map].
    erewrite bind_run by apply i2c_write_bit_run.
    rewrite IH. rewrite <- app_assoc. reflexivity.
Qed.

Lemma write_byte_loop_for_each (n : nat) : forall (data : Z) (tr : trace),
  write_byte_loop env bus n data tr =
  for_each (i2c_write_bit env bus) (write_bit_args n data) tr.
Proof.
  induction n as [|n IH]; intros data tr.
  - reflexivity.
  - cbn [write_byte_loop write_bit_args for_each].
    erewrite !bind_run by apply i2c_write_bit_run.
    apply IH.
Qed.

Lemma gpio_read_run (gpio : Z) (tr : trace) :
  exists v rd, gpio_read env gpio tr = (v, tr ++ rd) /\ Forall passive rd.
Proof.
  unfold gpio_read, gpio_direction_input, gpio_get_value, call, bind, ret.
  destruct (nonzero (env (tr ++ [EvDirIn gpio]))).
  - eexists; exists [EvDirIn gpio]. split; [reflexivity|].
    repeat constructor.
  - rewrite <- app_assoc. simpl.
    destruct (_ && _); eexists; exists [EvDirIn gpio; EvGetValue gpio];
      (split; [reflexivity | repeat constructor]).
Qed.

Lemma i2c_sda_high_run (tr : trace) :
  exists rd,
    i2c_sda_high env bus tr =
    (tt, tr ++ [ EvDirOut (scl bus) 0; EvUdelay (delay bus);
                 EvDirOut (sda bus) 1; EvUdelay (delay bus) ] ++ rd)
    /\ Forall passive rd.
Proof.
  unfold i2c_sda_high, get_sda. repeat step.
  match goal with
  | |- context [bind (gpio_read env (sda bus)) _ ?t] =>
      destruct (gpio_read_run (sda bus) t) as (v & rd & E & P)
  end.
  erewrite bind_run by apply E.
  exists rd. split; [|assumption].
  unfold ret. flatten. reflexivity.
Qed.

Lemma i2c_read_bit_run (tr : trace) :
  exists value rd,
    i2c_read_bit env bus tr =
    (value, tr ++ [ EvDirOut (scl bus) 1; EvUdelay (delay bus) ] ++ rd
               ++ [ EvUdelay (delay bus); EvDirOut (scl bus) 0;
                    EvUdelay (2 * delay bus) ])
    /\ Forall passive rd.
Proof.
  unfold i2c_read_bit, get_sda. repeat step.
  match goal with
  | |- context [bind (gpio_read env (sda bus)) _ ?t] =>
      destruct (gpio_read_run (sda bus) t) as (v & rd & E & P)
  end.
  erewrite bind_run by apply E.
  repeat step.
  exists v, rd. split; [|assumption].
  unfold ret. flatten. reflexivity.
Qed.

Lemma i2c_write_byte_run (data : Z) (tr : trace) :
  exists nack rd1 rd2,
    i2c_write_byte env bus data tr = (nack, tr ++ byte_events bus data rd1 rd2)
    /\ Forall passive rd1 /\ Forall passive rd2.
Proof.
  unfold i2c_write_byte.
  erewrite bind_run by apply write_byte_loop_run.
  step.
  match goal with
  | |- context [bind (i2c_sda_high env bus) _ ?t] =>
      destruct (i2c_sda_high_run t) as (rd1 & E1 & P1)
  end.
  erewrite bind_run by apply E1.
  match goal with
  | |- context [bind (i2c_read_bit env bus) _ ?t] =>
      destruct (i2c_read_bit_run t) as (nack & rd2 & E2 & P2)
  end.
  erewrite bind_run by apply E2.
  exists nack, rd1, rd2. split; [|split; assumption].
  unfold ret, byte_events, ack_events. f_equal.
  flatten. reflexivity.
Qed.

(** *** The data line during a byte *)

Lemma sda_values_app (l1 l2 : trace) :
  sda_values bus (l1 ++ l2) = sda_values bus l1 ++ sda_values bus l2.
Proof.
  induction l1 as [|e l1 IH]; simpl; [reflexivity|].
  destruct e; try apply IH.
  destruct (gpio =? sda bus); simpl; rewrite IH; reflexivity.
Qed.

Lemma sda_values_passive (rd : trace) :
  Forall passive rd -> sda_values bus rd = [].
Proof.
  induction 1 as [|e rd P _ IH]; simpl; [reflexivity|].
  destruct e; simpl in P; try contradiction; exact IH.
Qed.

Lemma sda_values_write_bits (args : list Z) :
  sda bus <> scl bus ->
  sda_values bus (flat_map (write_bit_events bus) args) = args.
Proof.
  intros Hpins.
  assert (Hne : (scl bus =? sda bus) = false) by (apply Z.eqb_neq; congruence).
  induction args as [|a args IH]; simpl; [reflexivity|].
  rewrite Hne, Z.eqb_refl. simpl. rewrite IH. reflexivity.
Qed.

Lemma list_Z_eqb_eq (l1 l2 : list Z) : list_Z_eqb l1 l2 = true -> l1 = l2.
Proof.
  unfold list_Z_eqb. destruct (list_eq_dec Z.eq_dec l1 l2); [auto | discriminate].
Qed.

Lemma write_bit_args_levels (data : Z) :
  0 <= data < 256 ->
  map logic_level (write_bit_args 8 data) = msb_first_bits data.
Proof.
  intros Hd. apply list_Z_eqb_eq.
  apply (byte_cases
           (fun d => list_Z_eqb (map logic_level (write_bit_args 8 d))
                                (msb_first_bits d))); [|exact Hd].
  vm_compute. reflexivity.
Qed.

Lemma write_bit_args_values (data : Z) :
  0 <= data < 256 ->
  write_bit_args 8 data =
  map (fun k => if Z.testbit data k then 128 else 0) [7; 6; 5; 4; 3; 2; 1; 0].
Proof.
  intros Hd. apply list_Z_eqb_eq.
  apply (byte_cases
           (fun d => list_Z_eqb (write_bit_args 8 d)
              (map (fun k => if Z.testbit d k then 128 else 0)
                   [7; 6; 5; 4; 3; 2; 1; 0]))); [|exact Hd].
  vm_compute. reflexivity.
Qed.

Lemma write_bit_args_masks (data : Z) :
  0 <= data < 256 ->
  write_bit_args 8 data =
  map (fun j => Z.land (Z.shiftl data j mod 256) 0x80) [0; 1; 2; 3; 4; 5; 6; 7].
Proof.
  intros Hd. apply list_Z_eqb_eq.
  apply (byte_cases
           (fun d => list_Z_eqb (write_bit_args 8 d)
              (map (fun j => Z.land (Z.shiftl d j mod 256) 0x80)
                   [0; 1; 2; 3; 4; 5; 6; 7]))); [|exact Hd].
  vm_compute. reflexivity.
Qed.

(** C5. For every 8-bit value, [i2c_write_byte] is eight calls of
    [i2c_write_bit], then the settle delay, the release of the data
    line and the sampling of the acknowledgment; the levels the eight
    calls put on the data line are the bits of the value, bit 7 first;
    for 0xA5 they are 1,0,1,0,0,1,0,1. *)
Theorem write_byte_msb_first (data : Z) (tr : trace) :
  0 <= data < 256 ->
  i2c_write_byte env bus data tr =
    (for_each (i2c_write_bit env bus) (write_bit_args 8 data) ;;
     udelay (delay bus) ;;
     i2c_sda_high env bus ;;
     i2c_read_bit env bus) tr
  /\ length (write_bit_args 8 data) = 8%nat
  /\ map logic_level (write_bit_args 8 data) = msb_first_bits data
  /\ map logic_level (write_bit_args 8 0xA5) = [1; 0; 1; 0; 0; 1; 0; 1].
Proof.
  intros Hd. repeat split.
  - unfold i2c_write_byte, bind, ret.
    rewrite <- write_byte_loop_for_each.
    destruct (write_byte_loop env bus 8 data tr) as [u t1].
    destruct (udelay (delay bus) t1) as [u2 t2].
    destruct (i2c_sda_high env bus t2) as [u3 t3].
    destruct (i2c_read_bit env bus t3) as [nack t4].
    reflexivity.
  - apply write_bit_args_levels. exact Hd.
Qed.

(** C10. During the eight data bits of [i2c_write_byte] the value
    handed to the pin-write primitive for the data line is
    [data & 0x80] of the byte as shifted so far: 128 for a bit that is
    set and 0 for one that is clear, never 1.  The only other write to
    the data line is the release, with value 1, after the eight bits. *)
Theorem write_byte_data_line_values (data : Z) (tr : trace) :
  sda bus <> scl bus ->
  0 <= data < 256 ->
  exists evs,
    snd (i2c_write_byte env bus data tr) = tr ++ evs
    /\ sda_values bus evs = write_bit_args 8 data ++ [1]
    /\ write_bit_args 8 data =
       map (fun j => Z.land (Z.shiftl data j mod 256) 0x80) [0; 1; 2; 3; 4; 5; 6; 7]
    /\ write_bit_args 8 data =
       map (fun k => if Z.testbit data k then 128 else 0) [7; 6; 5; 4; 3; 2; 1; 0]
    /\ ~ In 1 (write_bit_args 8 data).
Proof.
  intros Hpins Hd.
  destruct (i2c_write_byte_run data tr) as (nack & rd1 & rd2 & E & P1 & P2).
  exists (byte_events bus data rd1 rd2).
  assert (Hne : (scl bus =? sda bus) = false) by (apply Z.eqb_neq; congruence).
  split; [rewrite E; reflexivity|].
  split.
  { unfold byte_events, ack_events.
    rewrite sda_values_app, sda_values_write_bits by exact Hpins.
    f_equal. simpl. rewrite Hne, Z.eqb_refl.
    rewrite sda_values_app, (sda_values_passive rd1 P1). simpl.
    rewrite Hne.
    rewrite sda_values_app, (sda_values_passive rd2 P2). simpl.
    rewrite Hne. reflexivity. }
  split; [apply write_bit_args_masks; exact Hd|].
  split; [apply write_bit_args_values; exact Hd|].
  rewrite (write_bit_args_values data Hd).
  intros Hin. apply in_map_iff in Hin. destruct Hin as (k & Hk & _).
  destruct (Z.testbit data k); discriminate.
Qed.

(** *** Start and stop conditions of a register write *)

Lemma scan_app (st : lines) (l1 l2 : trace) :
  scan bus st (l1 ++ l2) = scan bus (scan bus st l1) l2.
Proof. apply fold_left_app. Qed.

Lemma scan_passive (rd : trace) :
  Forall passive rd -> forall st, scan bus st rd = st.
Proof.
  induction 1 as [|e rd P _ IH]; intros st; [reflexivity|].
  destruct e; simpl in P; try contradiction; apply IH.
Qed.

Section Pins.

Hypothesis pins : sda bus <> scl bus.

Lemma sda_is_not_scl : (sda bus =? scl bus) = false.
Proof. apply Z.eqb_neq. exact pins. Qed.

Lemma scan_write_bits (args : list Z) : forall st,
  starts (scan bus st (flat_map (write_bit_events bus) args)) = starts st
  /\ stops (scan bus st (flat_map (write_bit_events bus) args)) = stops st.
Proof.
  induction args as [|a args IH]; intros st; [split; reflexivity|].
  cbn [flat_map]. rewrite scan_app.
  destruct (IH (scan bus st (write_bit_events bus a))) as [E1 E2].
  rewrite E1, E2.
  unfold scan, write_bit_events. simpl.
  rewrite !Z.eqb_refl, !sda_is_not_scl. simpl. split; reflexivity.
Qed.

Lemma scan_ack_events (rd1 rd2 : trace) (st : lines) :
  Forall passive rd1 -> Forall passive rd2 ->
  scan bus st (ack_events bus rd1 rd2) =
  {| scl_high := false; sda_high := true;
     starts := starts st; stops := stops st |}.
Proof.
  intros P1 P2. unfold ack_events.
  rewrite scan_app, (scan_app _ rd1), (scan_passive rd1 P1).
  rewrite scan_app, (scan_app _ rd2), (scan_passive rd2 P2).
  unfold scan. simpl.
  rewrite !Z.eqb_refl, !sda_is_not_scl. simpl. reflexivity.
Qed.

Lemma scan_byte_events (data : Z) (rd1 rd2 : trace) (st : lines) :
  Forall passive rd1 -> Forall passive rd2 ->
  scan bus st (byte_events bus data rd1 rd2) =
  {| scl_high := false; sda_high := true;
     starts := starts st; stops := stops st |}.
Proof.
  intros P1 P2. unfold byte_events.
  rewrite scan_app, scan_ack_events by assumption.
  destruct (scan_write_bits (write_bit_args 8 data) st) as [E1 E2].
  rewrite E1, E2. reflexivity.
Qed.

Lemma scan_start_events :
  scan bus idle (start_events bus) =
  {| scl_high := true; sda_high := false; starts := 1; stops := 0 |}.
Proof.
  unfold scan, start_events, idle. simpl.
  rewrite !Z.eqb_refl, !sda_is_not_scl. simpl. reflexivity.
Qed.

Lemma scan_stop_events (s p : nat) :
  scan bus {| scl_high := false; sda_high := true; starts := s; stops := p |}
       (stop_events bus) =
  {| scl_high := true; sda_high := true; starts := s; stops := S p |}.
Proof.
  unfold scan, stop_events. simpl.
  rewrite !Z.eqb_refl, !sda_is_not_scl. simpl. reflexivity.
Qed.

End Pins.

Lemma scan_bytes_on_wire (body : trace) :
  sda bus <> scl bus ->
  bytes_on_wire bus body ->
  forall st,
    scan bus st body =
    {| scl_high := false; sda_high := true;
       starts := starts st; stops := stops st |}.
Proof.
  intros pins Hb. induction Hb as [d ra rb Pa Pb | d ra rb rest Pa Pb Hr IH];
    intros st.
  - apply scan_byte_events; assumption.
  - rewrite scan_app, IH, scan_byte_events by assumption. reflexivity.
Qed.

Lemma i2c_set_register_run (addr reg val : Z) (tr : trace) :
  exists r body,
    i2c_set_register env bus addr reg val tr =
    (r, tr ++ start_events bus ++ body ++ stop_events bus)
    /\ (r = 0 \/ r = -1)
    /\ bytes_on_wire bus body.
Proof.
  unfold i2c_set_register.
  erewrite bind_run by apply i2c_start_run.
  destruct (i2c_write_byte_run addr (tr ++ start_events bus))
    as (n1 & ra1 & rb1 & E1 & Pa1 & Pb1).
  erewrite bind_run by apply E1.
  destruct (nonzero n1).
  { erewrite bind_run by apply i2c_stop_run.
    exists (-1), (byte_events bus addr ra1 rb1).
    split; [unfold ret; f_equal; flatten; reflexivity|].
    split; [right; reflexivity | constructor; assumption]. }
  match goal with
  | |- context [bind (i2c_write_byte env bus reg) _ ?t] =>
      destruct (i2c_write_byte_run reg t) as (n2 & ra2 & rb2 & E2 & Pa2 & Pb2)
  end.
  erewrite bind_run by apply E2.
  destruct (nonzero n2).
  { erewrite bind_run by apply i2c_stop_run.
    exists (-1), (byte_events bus addr ra1 rb1 ++ byte_events bus reg ra2 rb2).
    split; [unfold ret; f_equal; repeat rewrite <- app_assoc; reflexivity|].
    split; [right; reflexivity | repeat constructor; assumption]. }
  match goal with
  | |- context [bind (i2c_write_byte env bus val) _ ?t] =>
      destruct (i2c_write_byte_run val t) as (n3 & ra3 & rb3 & E3 & Pa3 & Pb3)
  end.
  erewrite bind_run by apply E3.
  destruct (nonzero n3);
    erewrite bind_run by apply i2c_stop_run;
    [exists (-1) | exists 0];
    exists (byte_events bus addr ra1 rb1
              ++ byte_events bus reg ra2 rb2 ++ byte_events bus val ra3 rb3);
    (split; [unfold ret; f_equal; repeat rewrite <- app_assoc; reflexivity|]);
    (split; [auto | repeat constructor; assumption]).
Qed.

(** C4. Every call of [i2c_set_register], whatever the device answers,
    puts on the wire the events of [i2c_start], then one to three
    bytes, then the events of [i2c_stop].  Seen from an idle bus this
    is exactly one start condition and exactly one stop condition, none
    of them inside the bytes, and both lines are high at the end. *)
Theorem set_register_one_start_one_stop (addr reg val : Z) (tr : trace) :
  sda bus <> scl bus ->
  exists body,
    snd (i2c_set_register env bus addr reg val tr) =
      tr ++ start_events bus ++ body ++ stop_events bus
    /\ snd (i2c_start env bus tr) = tr ++ start_events bus
    /\ snd (i2c_stop env bus (tr ++ start_events bus ++ body)) =
         (tr ++ start_events bus ++ body) ++ stop_events bus
    /\ (forall st, starts (scan bus st body) = starts st
                   /\ stops (scan bus st body) = stops st)
    /\ scan bus idle (start_events bus ++ body ++ stop_events bus) =
         {| scl_high := true; sda_high := true; starts := 1; stops := 1 |}.
Proof.
  intros pins.
  destruct (i2c_set_register_run addr reg val tr) as (r & body & E & _ & Hb).
  exists body. rewrite E.
  split; [reflexivity|].
  split; [rewrite i2c_start_run; reflexivity|].
  split; [rewrite i2c_stop_run; reflexivity|].
  split.
  - intros st. rewrite (scan_bytes_on_wire body pins Hb). split; reflexivity.
  - rewrite scan_app, scan_start_events by exact pins.
    rewrite scan_app, (scan_bytes_on_wire body pins Hb). simpl starts. simpl stops.
    apply scan_stop_events. exact pins.
Qed.

(** C3, as the code has it.  A byte that is not acknowledged ends the
    register write: the stop condition is issued and the call fails.
    The value returned is -1 for the address byte, for the register
    byte and for the value byte alike; 0 is returned when all three
    bytes are acknowledged. *)
Theorem set_register_nack_outcomes (addr reg val : Z) (tr : trace)
    (n1 n2 n3 : Z) (t1 t2 t3 : trace) :
  i2c_write_byte env bus addr (tr ++ start_events bus) = (n1, t1) ->
  i2c_write_byte env bus reg t1 = (n2, t2) ->
  i2c_write_byte env bus val t2 = (n3, t3) ->
  (n1 <> 0 ->
   i2c_set_register env bus addr reg val tr = (-1, t1 ++ stop_events bus))
  /\ (n1 = 0 -> n2 <> 0 ->
      i2c_set_register env bus addr reg val tr = (-1, t2 ++ stop_events bus))
  /\ (n1 = 0 -> n2 = 0 -> n3 <> 0 ->
      i2c_set_register env bus addr reg val tr = (-1, t3 ++ stop_events bus))
  /\ (n1 = 0 -> n2 = 0 -> n3 = 0 ->
      i2c_set_register env bus addr reg val tr = (0, t3 ++ stop_events bus)).
Proof.
  intros E1 E2 E3.
  unfold i2c_set_register.
  erewrite bind_run by apply i2c_start_run.
  erewrite bind_run by apply E1.
  repeat split.
  - intros H1. apply nonzero_true in H1. rewrite H1.
    erewrite bind_run by apply i2c_stop_run. reflexivity.
  - intros H1 H2. apply nonzero_false in H1. apply nonzero_true in H2.
    rewrite H1. erewrite bind_run by apply E2. rewrite H2.
    erewrite bind_run by apply i2c_stop_run. reflexivity.
  - intros H1 H2 H3.
    apply nonzero_false in H1. apply nonzero_false in H2. apply nonzero_true in H3.
    rewrite H1. erewrite bind_run by apply E2. rewrite H2.
    erewrite bind_run by apply E3. rewrite H3.
    erewrite bind_run by apply i2c_stop_run. reflexivity.
  - intros H1 H2 H3.
    apply nonzero_false in H1. apply nonzero_false in H2. apply nonzero_false in H3.
    rewrite H1. erewrite bind_run by apply E2. rewrite H2.
    erewrite bind_run by apply E3. rewrite H3.
    erewrite bind_run by apply i2c_stop_run. reflexivity.
Qed.

End BitbangFacts.

(** *** The bit engine on the bus of [i2c_init] *)

Section BitbangExamples.

Import I2cBitbang Wire.

Lemma write_byte_msb_first_witness :
  0 <= 0xA5 < 256
  /\ map logic_level (write_bit_args 8 0xA5) = msb_first_bits 0xA5.
Proof.
  split; [lia|].
  destruct (write_byte_msb_first (nack_at 1) bus0 0xA5 [] ltac:(lia))
    as (_ & _ & H & _).
  exact H.
Defined.

Lemma write_byte_data_line_values_witness :
  sda bus0 <> scl bus0
  /\ exists evs,
       snd (i2c_write_byte (nack_at 1) bus0 0xA5 []) = [] ++ evs
       /\ sda_values bus0 evs = [128; 0; 128; 0; 0; 128; 0; 128; 1].
Proof.
  assert (pins : sda bus0 <> scl bus0) by (vm_compute; lia).
  split; [exact pins|].
  destruct (write_byte_data_line_values (nack_at 1) bus0 0xA5 [] pins ltac:(lia))
    as (evs & E & V & _).
  exists evs. split; [exact E | exact V].
Defined.

Lemma set_register_one_start_one_stop_witness :
  sda bus0 <> scl bus0
  /\ exists body,
       snd (i2c_set_register (nack_at 2) bus0 0x64 0x3F 0xFF []) =
         [] ++ start_events bus0 ++ body ++ stop_events bus0
       /\ scan bus0 idle (start_events bus0 ++ body ++ stop_events bus0) =
            {| scl_high := true; sda_high := true; starts := 1; stops := 1 |}.
Proof.
  assert (pins : sda bus0 <> scl bus0) by (vm_compute; lia).
  split; [exact pins|].
  destruct (set_register_one_start_one_stop (nack_at 2) bus0 0x64 0x3F 0xFF [] pins)
    as (body & E & _ & _ & _ & S).
  exists body. split; [exact E | exact S].
Defined.

Lemma set_register_nack_outcomes_witness :
  fst (i2c_set_register (nack_at 2) bus0 0x64 0x3F 0xFF []) = -1.
Proof.
  destruct (set_register_nack_outcomes (nack_at 2) bus0 0x64 0x3F 0xFF []
              _ _ _ _ _ _ eq_refl eq_refl eq_refl) as (_ & H & _).
  rewrite H.
  - reflexivity.
  - vm_compute. reflexivity.
  - vm_compute. discriminate.
Defined.

(** C3, as stated, fails.  On the bus of [i2c_init], a write of 0xFF to
    register 0x3F of device 0x64 is refused at the address byte by the
    first device, at the register byte by the second and at the value
    byte by the third; the three calls return the same value. *)
Lemma set_register_nack_codes_coincide :
  let refused k := i2c_set_register (nack_at k) bus0 0x64 0x3F 0xFF [] in
  let acks k :=
    let b1 := i2c_write_byte (nack_at k) bus0 0x64 ([] ++ start_events bus0) in
    let b2 := i2c_write_byte (nack_at k) bus0 0x3F (snd b1) in
    let b3 := i2c_write_byte (nack_at k) bus0 0xFF (snd b2) in
    (fst b1, fst b2, fst b3) in
  acks 1%nat = (1, 0, 0)
  /\ acks 2%nat = (0, 1, 0)
  /\ acks 3%nat = (0, 0, 1)
  /\ fst (refused 1%nat) = -1
  /\ fst (refused 2%nat) = -1
  /\ fst (refused 3%nat) = -1
  /\ ~ (fst (refused 1%nat) <> fst (refused 2%nat)
        /\ fst (refused 2%nat) <> fst (refused 3%nat)
        /\ fst (refused 1%nat) <> fst (refused 3%nat)).
Proof.
  cbv zeta.
  repeat split; try (vm_compute; reflexivity).
  intros (H & _). apply H. vm_compute. reflexivity.
Qed.

End BitbangExamples.

(** ** The chip protocol, on any board *)

Section ChipFacts.

Import Lp5569 Expected.

Context {W B : Type} {board : Board W B}.

Lemma or_return_run (c k : M W Z) (w w' : W) (r : Z) :
  c w = (r, w') ->
  or_return c k w = if nonzero r then (r, w') else k w'.
Proof.
  intros E. unfold or_return. erewrite bind_run by exact E.
  destruct (nonzero r); reflexivity.
Qed.

Lemma or_return_ext (c c' k k' : M W Z) (w : W) :
  c w = c' w -> (forall w', k w' = k' w') ->
  or_return c k w = or_return c' k' w.
Proof.
  intros Ec Ek. unfold or_return, bind. rewrite <- Ec.
  destruct (c w) as [r w']. destruct (nonzero r); [reflexivity | apply Ek].
Qed.

Lemma or_return_ret0 (c : M W Z) (w : W) :
  or_return c (ret 0) w = c w.
Proof.
  unfold or_return, bind, ret. destruct (c w) as [r w'].
  destruct (nonzero r) eqn:E; [reflexivity|].
  apply nonzero_false in E. subst r. reflexivity.
Qed.

Lemma or_return_assoc (a b c : M W Z) (w : W) :
  or_return (or_return a b) c w = or_return a (or_return b c) w.
Proof.
  unfold or_return, bind, ret. destruct (a w) as [r w'].
  destruct (nonzero r) eqn:E; [rewrite E; reflexivity|].
  reflexivity.
Qed.

Lemma write_in_order_app (bus : B) (ws1 ws2 : list (Z * Z)) : forall w,
  write_in_order bus (ws1 ++ ws2) w =
  or_return (write_in_order bus ws1) (write_in_order bus ws2) w.
Proof.
  induction ws1 as [|x ws1 IH]; intros w.
  - reflexivity.
  - cbn [app write_in_order]. rewrite or_return_assoc.
    apply or_return_ext; [reflexivity | exact IH].
Qed.

Lemma lp5569_init_in_order (bus : B) (w : W) :
  lp5569_init bus w = write_in_order bus init_writes w.
Proof. reflexivity. Qed.

Lemma write_bulk_loop_in_order (bus : B) (reg : Z) (rest : list Z) :
  forall (pre : list Z) (w : W),
    write_bulk_loop bus reg (pre ++ rest) (Z.of_nat (length pre)) (length rest) w =
    write_in_order bus (bulk_from reg (Z.of_nat (length pre)) rest) w.
Proof.
  induction rest as [|v rest IH]; intros pre w.
  - reflexivity.
  - cbn [length write_bulk_loop bulk_from write_in_order].
    rewrite Nat2Z.id, nth_middle.
    apply or_return_ext; [reflexivity|]. intros w'.
    replace (Z.of_nat (length pre) + 1) with (Z.of_nat (length (pre ++ [v])))
      by (rewrite length_app; simpl; lia).
    replace (pre ++ v :: rest) with ((pre ++ [v]) ++ rest)
      by (rewrite <- app_assoc; reflexivity).
    apply IH.
Qed.

Lemma lp5569_write_bulk_in_order (bus : B) (reg : Z) (buf : list Z) (w : W) :
  lp5569_write_bulk bus reg buf (Z.of_nat (length buf)) w =
  write_in_order bus (bulk reg buf) w.
Proof.
  unfold lp5569_write_bulk, bulk. rewrite Nat2Z.id.
  apply (write_bulk_loop_in_order bus reg buf []).
Qed.

Lemma bulk_from_plain (base : Z) (buf : list Z) : forall i,
  0 <= base + i -> base + i + Z.of_nat (length buf) <= 256 ->
  bulk_from base i buf = bulk_plain_from base i buf.
Proof.
  induction buf as [|v buf IH]; intros i Hlo Hhi; [reflexivity|].
  cbn [length bulk_from bulk_plain_from] in *.
  rewrite Z.mod_small by lia. f_equal. apply IH; lia.
Qed.

Lemma bulk_is_plain (base : Z) (buf : list Z) :
  0 <= base -> base + Z.of_nat (length buf) <= 256 ->
  bulk base buf = bulk_plain base buf.
Proof. intros. apply bulk_from_plain; lia. Qed.

Lemma lp5569_run_program_in_order (bus : B) (mux prog : list Z) (w : W) :
  (length mux <= 32)%nat -> (length prog <= 32)%nat ->
  lp5569_run_program bus mux (Z.of_nat (length mux))
                     prog (Z.of_nat (length prog)) w =
  write_in_order bus (program_writes mux prog) w.
Proof.
  intros Hm Hp. unfold lp5569_run_program, LP5569_MAX_PROGRAM_LEN.
  cbv zeta. rewrite !Z.mod_small by lia.
  replace (Z.of_nat (length mux) >? 32) with false by (symmetry; lia).
  replace (Z.of_nat (length prog) >? 32) with false by (symmetry; lia).
  cbn [orb]. unfold program_writes.
  rewrite <- !bulk_is_plain by lia.
  cbn [app write_in_order fst snd].
  apply or_return_ext; [reflexivity|]. intros w1.
  apply or_return_ext; [reflexivity|]. intros w2.
  rewrite write_in_order_app.
  apply or_return_ext; [apply lp5569_write_bulk_in_order|]. intros w3.
  cbn [app write_in_order fst snd].
  apply or_return_ext; [reflexivity|]. intros w4.
  rewrite write_in_order_app.
  apply or_return_ext; [apply lp5569_write_bulk_in_order|]. intros w5.
  cbn [app write_in_order fst snd].
  apply or_return_ext; [reflexivity|]. intros w6.
  rewrite or_return_ret0. reflexivity.
Qed.

(** C7, as the code has it.  The lengths reach [lp5569_run_program]
    through [uint8_t] parameters, so the guard tests them modulo 256.
    When the length of the mux table or of the program, so seen, is
    more than 32, the call returns the error -1 and the world is as
    before: nothing has been called on the bus.  That is the case for
    every array of 33 to 255 bytes passed with its length.  This holds
    on every board, the bit-banged one included. *)
Theorem run_program_too_large (bus : B) (mux prog : list Z)
    (mux_len prog_len : Z) (w : W) :
  (32 < mux_len mod 256 \/ 32 < prog_len mod 256 ->
   lp5569_run_program bus mux mux_len prog prog_len w = (-1, w))
  /\ ((length mux <= 255)%nat -> (length prog <= 255)%nat ->
      (32 < length mux)%nat \/ (32 < length prog)%nat ->
      lp5569_run_program bus mux (Z.of_nat (length mux))
                         prog (Z.of_nat (length prog)) w = (-1, w)).
Proof.
  assert (Hguard : forall ml pl,
             32 < ml mod 256 \/ 32 < pl mod 256 ->
             lp5569_run_program bus mux ml prog pl w = (-1, w)).
  { intros ml pl H. unfold lp5569_run_program, LP5569_MAX_PROGRAM_LEN.
    cbv zeta.
    replace ((ml mod 256 >? 32) || (pl mod 256 >? 32)) with true;
      [reflexivity|].
    symmetry. apply orb_true_iff. lia. }
  split.
  - apply Hguard.
  - intros Hm Hp H. apply Hguard.
    rewrite !Z.mod_small by lia. lia.
Qed.

Lemma lp5569_play_tape_out_of_range (bus : B) (tape_index : Z) (w : W) :
  2 <= tape_index -> lp5569_play_tape bus tape_index w = (-1, w).
Proof.
  intros H. unfold lp5569_play_tape, LP5569_MAX_PROGRAM_LEN.
  replace (tape_index >=? 2 * 32 / 32) with true; [reflexivity|].
  symmetry. change (2 * 32 / 32) with 2. lia.
Qed.

Lemma lp5569_play_tape_in_range (bus : B) (tape_index : Z) (w : W) :
  0 <= tape_index < 2 ->
  lp5569_play_tape bus tape_index w =
  lp5569_run_program bus (nth (Z.to_nat tape_index) led_mux_tapes [])
                     32 led_prog 32 w.
Proof.
  intros H. unfold lp5569_play_tape, LP5569_MAX_PROGRAM_LEN.
  replace (tape_index >=? 2 * 32 / 32) with false
    by (symmetry; change (2 * 32 / 32) with 2; lia).
  apply or_return_ret0.
Qed.

Lemma led_mux_tape_length (tape_index : Z) :
  0 <= tape_index < 2 ->
  length (nth (Z.to_nat tape_index) led_mux_tapes []) = 32%nat.
Proof.
  intros H. assert (C : tape_index = 0 \/ tape_index = 1) by lia.
  destruct C; subst; reflexivity.
Qed.

(** C8. A tape index of 2 or more makes [lp5569_play_tape] return the
    error -1 with nothing called on the bus.  For index 0 or 1 the call
    is [lp5569_run_program] on that tape's 32-byte mux table and the
    32-byte program [led_prog]. *)
Theorem play_tape_index_check (bus : B) (tape_index : Z) (w : W) :
  (2 <= tape_index -> lp5569_play_tape bus tape_index w = (-1, w))
  /\ (0 <= tape_index < 2 ->
      lp5569_play_tape bus tape_index w =
        lp5569_run_program bus (nth (Z.to_nat tape_index) led_mux_tapes [])
                           32 led_prog 32 w
      /\ length (nth (Z.to_nat tape_index) led_mux_tapes []) = 32%nat
      /\ length led_prog = 32%nat).
Proof.
  split.
  - apply lp5569_play_tape_out_of_range.
  - intros H. split; [|split].
    + apply lp5569_play_tape_in_range. exact H.
    + apply led_mux_tape_length. exact H.
    + reflexivity.
Qed.

End ChipFacts.

(** ** The chip protocol against the recording bus *)

Section MockFacts.

Import Lp5569 Expected.

Variable env : Mock.log -> Z.
Variable cpe : Z -> Z.

(** In this section the chip code runs on the recording bus. *)
Local Hint Extern 0 (Board _ _) => exact (Mock.board env cpe) : typeclass_instances.

Lemma set_register_log (reg val : Z) (l : Mock.log) :
  lp5569_set_register tt reg val l =
  (env (l ++ [Mock.W reg val]), l ++ [Mock.W reg val]).
Proof. reflexivity. Qed.

(** All the writes are accepted: all are made, in order. *)
Lemma write_in_order_all (ws : list (Z * Z)) : forall l,
  (forall j, (1 <= j <= length ws)%nat ->
             env (l ++ firstn j (events ws)) = 0) ->
  write_in_order tt ws l = (0, l ++ events ws).
Proof.
  induction ws as [|w ws IH]; intros l Hok.
  - simpl. unfold ret. rewrite app_nil_r. reflexivity.
  - cbn [write_in_order events map].
    erewrite or_return_run by apply set_register_log.
    pose proof (Hok 1%nat ltac:(simpl; lia)) as H1. simpl in H1.
    rewrite H1. change (nonzero 0) with false. cbv iota.
    rewrite IH.
    + rewrite <- app_assoc. reflexivity.
    + intros j Hj. rewrite <- app_assoc.
      apply (Hok (S j)). simpl. lia.
Qed.

(** The [k]-th write is the first one refused: [k] writes are made and
    the refusal is returned. *)
Lemma write_in_order_first_failure (ws : list (Z * Z)) : forall l k,
  (1 <= k <= length ws)%nat ->
  (forall j, (1 <= j < k)%nat -> env (l ++ firstn j (events ws)) = 0) ->
  env (l ++ firstn k (events ws)) <> 0 ->
  write_in_order tt ws l =
  (env (l ++ firstn k (events ws)), l ++ firstn k (events ws)).
Proof.
  induction ws as [|w ws IH]; intros l k Hk Hok Hfail.
  - simpl in Hk. lia.
  - assert (Efirst : forall j, l ++ firstn (S j) (events (w :: ws)) =
                               (l ++ [Mock.W (fst w) (snd w)]) ++ firstn j (events ws))
      by (intros; rewrite <- app_assoc; reflexivity).
    cbn [write_in_order].
    erewrite or_return_run by apply set_register_log.
    destruct k as [|k]; [lia|].
    rewrite Efirst in Hfail |- *.
    destruct k as [|k].
    + simpl in Hfail |- *. rewrite app_nil_r in Hfail |- *.
      apply nonzero_true in Hfail. rewrite Hfail. reflexivity.
    + pose proof (Hok 1%nat ltac:(lia)) as H1.
      rewrite Efirst in H1. simpl in H1. rewrite app_nil_r in H1.
      rewrite H1. change (nonzero 0) with false. cbv iota.
      apply IH.
      * simpl in Hk. lia.
      * intros j Hj. rewrite <- Efirst. apply Hok. lia.
      * exact Hfail.
Qed.

(** Whatever the bus answers, the writes made are the first [k] of the
    list, all of them when the result is 0, at least one when there is
    one to make. *)
Lemma write_in_order_prefix (ws : list (Z * Z)) : forall l,
  exists k,
    (k <= length ws)%nat
    /\ snd (write_in_order tt ws l) = l ++ firstn k (events ws)
    /\ (fst (write_in_order tt ws l) = 0 -> k = length ws)
    /\ (ws <> [] -> (1 <= k)%nat).
Proof.
  induction ws as [|w ws IH]; intros l.
  - exists 0%nat. simpl. rewrite app_nil_r. repeat split; auto. congruence.
  - cbn [write_in_order events map].
    erewrite or_return_run by apply set_register_log.
    destruct (nonzero (env (l ++ [Mock.W (fst w) (snd w)]))) eqn:E.
    + exists 1%nat. simpl. repeat split; try lia.
      intros H0. apply nonzero_true in E. contradiction.
    + destruct (IH (l ++ [Mock.W (fst w) (snd w)])) as (k & Hk & Hs & H0 & _).
      exists (S k). cbn [length firstn].
      split; [lia|]. split; [rewrite Hs, <- app_assoc; reflexivity|].
      split; [|lia].
      intros H. rewrite (H0 H). reflexivity.
Qed.

(** C2. For a mux table and a program of at most 32 bytes each, the
    register writes of [lp5569_run_program] are: engine control 2 :=
    0x54, page select := 1, the mux bytes from register 0x50 on, page
    select := 0, the program bytes from register 0x50 on, engine
    control 2 := 0x00, engine control 2 := 0x80, engine control 1 :=
    0x80.  The log always grows by an initial part of this sequence,
    with nothing else in between; it grows by the whole sequence
    whenever the call returns 0, and the call returns 0 when the bus
    accepts each of these writes.  On any board the call is these
    writes made in order up to the first failure. *)
Theorem run_program_write_sequence (mux prog : list Z) (l : Mock.log) :
  (length mux <= 32)%nat ->
  (length prog <= 32)%nat ->
  let expected :=
    events ([ (0x02, 0x54); (0x4F, 0x01) ]
              ++ bulk_plain 0x50 mux
              ++ [ (0x4F, 0x00) ]
              ++ bulk_plain 0x50 prog
              ++ [ (0x02, 0x00); (0x02, 0x80); (0x01, 0x80) ]) in
  let run :=
    lp5569_run_program (board := Mock.board env cpe) tt
                       mux (Z.of_nat (length mux))
                       prog (Z.of_nat (length prog)) l in
  (exists k, snd run = l ++ firstn k expected)
  /\ (fst run = 0 -> snd run = l ++ expected)
  /\ ((forall j, (1 <= j <= length expected)%nat ->
                 env (l ++ firstn j expected) = 0) ->
      run = (0, l ++ expected))
  /\ (forall (W B : Type) (board : Board W B) (bus : B) (w : W),
      lp5569_run_program bus mux (Z.of_nat (length mux))
                         prog (Z.of_nat (length prog)) w =
      write_in_order bus (program_writes mux prog) w).
Proof.
  intros Hm Hp expected run.
  assert (Erun : run = write_in_order (board := Mock.board env cpe) tt
                         (program_writes mux prog) l)
    by (apply lp5569_run_program_in_order; assumption).
  change expected with (events (program_writes mux prog)).
  rewrite Erun.
  destruct (write_in_order_prefix (program_writes mux prog) l)
    as (k & Hk & Hs & H0 & _).
  split; [exists k; exact Hs|].
  split; [|split].
  - intros H. etransitivity; [exact Hs|]. rewrite (H0 H).
    replace (length (program_writes mux prog))
      with (length (events (program_writes mux prog)))
      by apply length_map.
    rewrite firstn_all. reflexivity.
  - intros Hok. apply write_in_order_all.
    intros j Hj. apply Hok. unfold events. rewrite length_map. exact Hj.
  - intros W B board bus w. apply lp5569_run_program_in_order; assumption.
Qed.

Lemma bulk_from_length (base : Z) (buf : list Z) : forall i,
  length (bulk_from base i buf) = length buf.
Proof.
  induction buf as [|v buf IH]; intros i; simpl; [reflexivity|].
  rewrite IH. reflexivity.
Qed.

Lemma bulk_from_nth (base : Z) (buf : list Z) : forall i (n : nat),
  (n < length buf)%nat ->
  nth n (bulk_from base i buf) (0, 0) =
  ((base + (i + Z.of_nat n)) mod 256, nth n buf 0).
Proof.
  induction buf as [|v buf IH]; intros i n Hn; simpl in Hn; [lia|].
  destruct n as [|n].
  - simpl. rewrite Z.add_0_r. reflexivity.
  - cbn [bulk_from nth]. rewrite IH by lia. do 2 f_equal. lia.
Qed.

(** C6, as the code has it.  [lp5569_write_bulk] writes byte [i] of the
    array to the 8-bit register number [(reg + i) mod 256], in order.
    When every write is accepted, all [n] are made and 0 is returned;
    when the [k]-th is the first one refused, exactly [k] are made and
    that refusal is returned.  The register numbers are
    [reg, reg + 1, ..., reg + n - 1] as long as these stay below 256.
    On any board the call is these writes made in order up to the
    first failure. *)
Theorem write_bulk_attempts (reg : Z) (buf : list Z) (l : Mock.log) :
  0 <= reg < 256 ->
  (length buf <= 255)%nat ->
  let writes := events (bulk reg buf) in
  let run :=
    lp5569_write_bulk (board := Mock.board env cpe) tt
                      reg buf (Z.of_nat (length buf)) l in
  length writes = length buf
  /\ (forall i, (i < length buf)%nat ->
        nth i writes Mock.Init =
        Mock.W ((reg + Z.of_nat i) mod 256) (nth i buf 0))
  /\ ((forall j, (1 <= j <= length buf)%nat ->
                 env (l ++ firstn j writes) = 0) ->
      run = (0, l ++ writes))
  /\ (forall k, (1 <= k <= length buf)%nat ->
        (forall j, (1 <= j < k)%nat -> env (l ++ firstn j writes) = 0) ->
        env (l ++ firstn k writes) <> 0 ->
        run = (env (l ++ firstn k writes), l ++ firstn k writes))
  /\ (reg + Z.of_nat (length buf) <= 256 ->
      writes = events (bulk_plain reg buf))
  /\ (forall (W B : Type) (board : Board W B) (bus : B) (w : W),
      lp5569_write_bulk bus reg buf (Z.of_nat (length buf)) w =
      write_in_order bus (bulk reg buf) w).
Proof.
  intros Hreg Hlen writes run.
  assert (Erun : run = write_in_order tt (bulk reg buf) l)
    by apply lp5569_write_bulk_in_order.
  assert (Elen : length (bulk reg buf) = length buf)
    by apply bulk_from_length.
  split; [unfold writes, events; rewrite length_map; exact Elen|].
  split.
  { intros i Hi. unfold writes, events.
    rewrite nth_indep with (d' := Mock.W (fst (0, 0)) (snd (0, 0)))
      by (rewrite length_map; lia).
    rewrite (map_nth (fun w => Mock.W (fst w) (snd w))).
    unfold bulk. rewrite bulk_from_nth by exact Hi. reflexivity. }
  split.
  { intros Hok. rewrite Erun. apply write_in_order_all.
    rewrite Elen. exact Hok. }
  split.
  { intros k Hk Hok Hfail. rewrite Erun.
    apply write_in_order_first_failure; [rewrite Elen|..]; assumption. }
  split.
  { intros Hfit. unfold writes. rewrite bulk_is_plain by lia. reflexivity. }
  intros W B board bus w. apply lp5569_write_bulk_in_order.
Qed.

(** *** The retry loop of the command *)

Lemma filter_firstn_length {A : Type} (f : A -> bool) (l : list A) : forall k,
  (length (filter f (firstn k l)) <= length (filter f l))%nat.
Proof.
  induction l as [|a l IH]; intros k.
  - rewrite firstn_nil. simpl. lia.
  - destruct k as [|k]; simpl; [lia|].
    specialize (IH k). destruct (f a); simpl; lia.
Qed.

Lemma init_attempts_app (a b : Mock.log) :
  Mock.init_attempts (a ++ b) = (Mock.init_attempts a + Mock.init_attempts b)%nat.
Proof. unfold Mock.init_attempts. rewrite filter_app, length_app. reflexivity. Qed.

Lemma retry_delays_app (a b : Mock.log) :
  Mock.retry_delays (a ++ b) = (Mock.retry_delays a + Mock.retry_delays b)%nat.
Proof. unfold Mock.retry_delays. rewrite filter_app, length_app. reflexivity. Qed.

Lemma playback_started_app (a b : Mock.log) :
  Mock.playback_started (a ++ b) =
  Mock.playback_started a || Mock.playback_started b.
Proof. apply existsb_app. Qed.

Lemma playback_started_firstn (l : Mock.log) : forall k,
  Mock.playback_started l = false ->
  Mock.playback_started (firstn k l) = false.
Proof.
  unfold Mock.playback_started.
  induction l as [|a l IH]; intros k H.
  - rewrite firstn_nil. reflexivity.
  - destruct k as [|k]; [reflexivity|].
    simpl in H |- *. apply orb_false_iff in H. destruct H as [Ha Hl].
    rewrite Ha. simpl. apply IH. exact Hl.
Qed.

(** One attempt of [lp5569_init]: a non-empty initial part of the
    thirteen set-up writes, so one write to the reset register, no
    delay and no write of the load-program mode. *)
Lemma lp5569_init_log (l : Mock.log) :
  exists ext,
    snd (lp5569_init tt l) = l ++ ext
    /\ Mock.init_attempts ext = 1%nat
    /\ Mock.retry_delays ext = 0%nat
    /\ Mock.playback_started ext = false.
Proof.
  destruct (write_in_order_prefix init_writes l) as (k & Hk & Hs & _ & H1).
  specialize (H1 ltac:(discriminate)).
  exists (firstn k (events init_writes)).
  split; [exact Hs|].
  destruct k as [|k]; [lia|].
  change (firstn (S k) (events init_writes))
    with ([Mock.W 0x3F 0xFF] ++ firstn k (events (tl init_writes))).
  rewrite init_attempts_app, retry_delays_app, playback_started_app.
  pose proof (filter_firstn_length Mock.is_reset_write (events (tl init_writes)) k) as A.
  pose proof (filter_firstn_length Mock.is_retry_delay (events (tl init_writes)) k) as D.
  change (length (filter Mock.is_reset_write (events (tl init_writes)))) with 0%nat in A.
  change (length (filter Mock.is_retry_delay (events (tl init_writes)))) with 0%nat in D.
  unfold Mock.init_attempts at 2. unfold Mock.retry_delays at 2.
  split; [|split].
  - change (Mock.init_attempts [Mock.W 63 255]) with 1%nat. lia.
  - change (Mock.retry_delays [Mock.W 63 255]) with 0%nat. lia.
  - rewrite playback_started_firstn by reflexivity. reflexivity.
Qed.

(** The loop, from any log: either an attempt succeeded, and it is the
    last one and the only one not followed by a delay, or all [n]
    attempts failed and each was followed by a delay. *)
Lemma init_retry_loop_log (n : nat) : forall (r0 : Z) (l : Mock.log),
  exists ext,
    snd (init_retry_loop tt n r0 l) = l ++ ext
    /\ Mock.playback_started ext = false
    /\ ((fst (init_retry_loop tt n r0 l) = 0
         /\ Mock.init_attempts ext = S (Mock.retry_delays ext)
         /\ (Mock.init_attempts ext <= n)%nat)
        \/ (Mock.init_attempts ext = n
            /\ Mock.retry_delays ext = n
            /\ (n = 0%nat -> fst (init_retry_loop tt n r0 l) = r0)
            /\ ((1 <= n)%nat -> fst (init_retry_loop tt n r0 l) <> 0))).
Proof.
  induction n as [|n IH]; intros r0 l.
  - exists []. simpl. rewrite app_nil_r.
    split; [reflexivity|]. split; [reflexivity|].
    right. repeat split; auto. lia.
  - destruct (lp5569_init_log l) as (e1 & Hs & Ha & Hd & Hp).
    destruct (lp5569_init tt l) as [r l1] eqn:E. simpl in Hs. subst l1.
    assert (Estep : init_retry_loop tt (S n) r0 l =
                    if nonzero r
                    then init_retry_loop tt n r ((l ++ e1) ++ [Mock.Udelay (100 * 1000)])
                    else (r, l ++ e1)).
    { cbn [init_retry_loop]. erewrite bind_run by exact E.
      destruct (nonzero r); reflexivity. }
    rewrite Estep. clear Estep.
    destruct (nonzero r) eqn:Hr.
    + destruct (IH r ((l ++ e1) ++ [Mock.Udelay (100 * 1000)]))
        as (e2 & Hs2 & Hp2 & Hcases).
      exists (e1 ++ [Mock.Udelay (100 * 1000)] ++ e2).
      split; [etransitivity; [exact Hs2|]; repeat rewrite <- app_assoc; reflexivity|].
      split.
      { rewrite !playback_started_app, Hp, Hp2. reflexivity. }
      rewrite !init_attempts_app, !retry_delays_app, Ha, Hd.
      change (Mock.init_attempts [Mock.Udelay (100 * 1000)]) with 0%nat.
      change (Mock.retry_delays [Mock.Udelay (100 * 1000)]) with 1%nat.
      destruct Hcases as [(H0 & Heq & Hle) | (Hna & Hnd & Hz & Hnz)].
      * left. split; [exact H0|]. lia.
      * right. repeat split; try lia.
        intros _. destruct n as [|n'].
        -- rewrite (Hz eq_refl). apply nonzero_true. exact Hr.
        -- apply Hnz. lia.
    + exists e1. split; [reflexivity|]. split; [exact Hp|].
      left. simpl. apply nonzero_false in Hr. rewrite Ha, Hd.
      repeat split; auto. lia.
Qed.

(** The command, step by step. *)
Lemma lp5569_cmd_run (tape : Z) :
  lp5569_cmd tape [] =
  if nonzero (env [Mock.Init]) then (cpe (env [Mock.Init]), [Mock.Init])
  else
    let a := init_retry_loop tt 15 (env [Mock.Init]) [Mock.Init] in
    let p := if nonzero (fst a) then a else lp5569_play_tape tt tape (snd a) in
    let d := env (snd p ++ [Mock.Deinit]) in
    (if nonzero d then cpe (if nonzero (fst p) then fst p else 1) else 0,
     snd p ++ [Mock.Deinit]).
Proof.
  unfold lp5569_cmd. unfold bind at 1.
  cbn [i2c_init Mock.board]. unfold bind at 1, Mock.call at 1.
  cbn [app]. unfold ret at 1.
  destruct (nonzero (env [Mock.Init])); [reflexivity|].
  unfold bind at 1.
  destruct (init_retry_loop tt 15 (env [Mock.Init]) [Mock.Init]) as [r l1].
  cbn [fst snd]. unfold bind at 1.
  destruct (nonzero r) eqn:Hr.
  - unfold ret at 1. cbn [fst snd]. rewrite Hr.
    unfold bind at 1. cbn [i2c_deinit Mock.board]. unfold Mock.call.
    destruct (nonzero (env (l1 ++ [Mock.Deinit]))); reflexivity.
  - destruct (lp5569_play_tape tt tape l1) as [r2 l2].
    cbn [fst snd].
    unfold bind at 1. cbn [i2c_deinit Mock.board]. unfold Mock.call.
    destruct (nonzero (env (l2 ++ [Mock.Deinit]))); reflexivity.
Qed.

(** Playing a known tape: at least the write of the load-program mode
    is made, and no write to the reset register and no delay. *)
Lemma lp5569_play_tape_log (tape : Z) (l : Mock.log) :
  0 <= tape < 2 ->
  exists ext,
    snd (lp5569_play_tape tt tape l) = l ++ ext
    /\ Mock.init_attempts ext = 0%nat
    /\ Mock.retry_delays ext = 0%nat
    /\ Mock.playback_started ext = true.
Proof.
  intros Ht.
  rewrite lp5569_play_tape_in_range by exact Ht.
  set (mux := nth (Z.to_nat tape) led_mux_tapes []).
  assert (Hm : length mux = 32%nat) by (apply led_mux_tape_length; exact Ht).
  assert (Hp : length led_prog = 32%nat) by reflexivity.
  assert (E : lp5569_run_program tt mux 32 led_prog 32 l =
              write_in_order tt (program_writes mux led_prog) l).
  { rewrite <- (lp5569_run_program_in_order tt mux led_prog l) by lia.
    rewrite Hm, Hp. reflexivity. }
  rewrite E. clear E.
  destruct (write_in_order_prefix (program_writes mux led_prog) l)
    as (k & Hk & Hs & _ & H1).
  specialize (H1 ltac:(discriminate)).
  exists (firstn k (events (program_writes mux led_prog))).
  split; [exact Hs|].
  pose proof (filter_firstn_length Mock.is_reset_write
                (events (program_writes mux led_prog)) k) as A.
  pose proof (filter_firstn_length Mock.is_retry_delay
                (events (program_writes mux led_prog)) k) as D.
  assert (A0 : length (filter Mock.is_reset_write
                         (events (program_writes mux led_prog))) = 0%nat).
  { assert (C : tape = 0 \/ tape = 1) by lia.
    unfold mux. destruct C; subst tape; vm_compute; reflexivity. }
  assert (D0 : length (filter Mock.is_retry_delay
                         (events (program_writes mux led_prog))) = 0%nat).
  { assert (C : tape = 0 \/ tape = 1) by lia.
    unfold mux. destruct C; subst tape; vm_compute; reflexivity. }
  unfold Mock.init_attempts, Mock.retry_delays.
  split; [lia|]. split; [lia|].
  destruct k as [|k]; [lia|]. reflexivity.
Qed.

(** C9. The command makes at most 15 attempts of [lp5569_init].  When
    playback is reached, all attempts but one were followed by the
    100 ms delay: the one that succeeded, after which no other attempt
    is made.  When playback is not reached, every attempt was followed
    by the delay, and there were 15 of them (or none, when the bus
    could not be acquired).  For a chip that refuses every write until
    [k] delays have passed, [k] below 15, the command makes exactly
    [k + 1] attempts, the first [k] each followed by the delay, then
    plays the tape and releases the bus; with [k = 2] that is 3
    attempts. *)
Theorem init_retry_bound (tape : Z) :
  0 <= tape < 2 ->
  let l := snd (lp5569_cmd (board := Mock.board env cpe) tape []) in
  (Mock.init_attempts l <= 15)%nat
  /\ (Mock.playback_started l = true ->
      Mock.init_attempts l = S (Mock.retry_delays l))
  /\ (Mock.playback_started l = false ->
      Mock.retry_delays l = Mock.init_attempts l
      /\ (Mock.init_attempts l = 0 \/ Mock.init_attempts l = 15)%nat)
  /\ (forall k, (k < 15)%nat ->
      lp5569_cmd (board := Mock.board (Mock.settles_after k) cpe) tape [] =
      (0, [Mock.Init]
            ++ concat (repeat [Mock.W 0x3F 0xFF; Mock.Udelay 100000] k)
            ++ events init_writes
            ++ events (program_writes (nth (Z.to_nat tape) led_mux_tapes [])
                                      led_prog)
            ++ [Mock.Deinit]))
  /\ Mock.init_attempts
       (snd (lp5569_cmd (board := Mock.board (Mock.settles_after 2) cpe) tape []))
     = 3%nat.
Proof.
  intros Ht l.
  assert (Ctape : tape = 0 \/ tape = 1) by lia.
  assert (General :
    (Mock.init_attempts l <= 15)%nat
    /\ (Mock.playback_started l = true ->
        Mock.init_attempts l = S (Mock.retry_delays l))
    /\ (Mock.playback_started l = false ->
        Mock.retry_delays l = Mock.init_attempts l
        /\ (Mock.init_attempts l = 0 \/ Mock.init_attempts l = 15)%nat)).
  { unfold l. rewrite lp5569_cmd_run.
    destruct (nonzero (env [Mock.Init])).
    { cbn [snd]. split; [vm_compute; lia|].
      split; [discriminate|]. intros _. split; [reflexivity | left; reflexivity]. }
    destruct (init_retry_loop_log 15 (env [Mock.Init]) [Mock.Init])
      as (ext & Hs & Hp & Hcases).
    destruct (init_retry_loop tt 15 (env [Mock.Init]) [Mock.Init]) as [r l1].
    cbn [fst snd] in *. subst l1.
    destruct Hcases as [(H0 & Heq & Hle) | (Hna & Hnd & _ & Hnz)].
    - subst r. change (nonzero 0) with false. cbv iota.
      destruct (lp5569_play_tape_log tape ([Mock.Init] ++ ext) Ht)
        as (play & Hsp & Pa & Pd & Pp).
      destruct (lp5569_play_tape tt tape ([Mock.Init] ++ ext)) as [r2 l2].
      cbn [fst snd] in *. subst l2.
      rewrite !init_attempts_app, !retry_delays_app, !playback_started_app.
      rewrite Pa, Pd, Pp, Hp.
      change (Mock.init_attempts [Mock.Init]) with 0%nat.
      change (Mock.retry_delays [Mock.Init]) with 0%nat.
      change (Mock.init_attempts [Mock.Deinit]) with 0%nat.
      change (Mock.retry_delays [Mock.Deinit]) with 0%nat.
      split; [lia|]. split; [intros _; lia|].
      rewrite orb_true_r. simpl. discriminate.
    - specialize (Hnz ltac:(lia)). apply nonzero_true in Hnz. rewrite Hnz.
      cbn [fst snd].
      rewrite !init_attempts_app, !retry_delays_app, !playback_started_app.
      rewrite Hp, Hna, Hnd.
      change (Mock.init_attempts [Mock.Init]) with 0%nat.
      change (Mock.retry_delays [Mock.Init]) with 0%nat.
      change (Mock.init_attempts [Mock.Deinit]) with 0%nat.
      change (Mock.retry_delays [Mock.Deinit]) with 0%nat.
      split; [lia|]. split; [simpl; discriminate|].
      intros _. split; [lia | right; lia]. }
  destruct General as (G1 & G2 & G3).
  split; [exact G1|]. split; [exact G2|]. split; [exact G3|].
  split.
  - intros k Hk.
    destruct Ctape; subst tape;
      do 15 (destruct k as [|k]; [vm_compute; reflexivity|]); lia.
  - destruct Ctape; subst tape; vm_compute; reflexivity.
Qed.

End MockFacts.

(** ** The chip protocol on concrete boards *)

Section ChipExamples.

Import Lp5569 Expected.

Lemma run_program_write_sequence_witness :
  (length (nth 0 led_mux_tapes []) <= 32)%nat
  /\ (length led_prog <= 32)%nat
  /\ lp5569_run_program (board := Mock.board Mock.healthy (fun z => z)) tt
       (nth 0 led_mux_tapes []) (Z.of_nat (length (nth 0 led_mux_tapes [])))
       led_prog (Z.of_nat (length led_prog)) []
     = (0, [] ++ events (program_writes (nth 0 led_mux_tapes []) led_prog)).
Proof.
  assert (H1 : (length (nth 0 led_mux_tapes []) <= 32)%nat)
    by (vm_compute; lia).
  assert (H2 : (length led_prog <= 32)%nat) by (vm_compute; lia).
  split; [exact H1|]. split; [exact H2|].
  pose proof (run_program_write_sequence Mock.healthy (fun z => z)
                (nth 0 led_mux_tapes []) led_prog [] H1 H2) as H.
  cbv zeta in H. destruct H as (_ & _ & H & _).
  apply H. intros j _. reflexivity.
Defined.

Lemma write_bulk_attempts_witness :
  0 <= 0x50 < 256
  /\ (length [7; 8; 9] <= 255)%nat
  /\ lp5569_write_bulk (board := Mock.board Mock.healthy (fun z => z)) tt
       0x50 [7; 8; 9] (Z.of_nat (length [7; 8; 9])) []
     = (0, [] ++ [Mock.W 0x50 7; Mock.W 0x51 8; Mock.W 0x52 9]).
Proof.
  assert (H1 : 0 <= 0x50 < 256) by lia.
  assert (H2 : (length [7; 8; 9] <= 255)%nat) by (simpl; lia).
  split; [exact H1|]. split; [exact H2|].
  pose proof (write_bulk_attempts Mock.healthy (fun z => z) 0x50 [7; 8; 9] [] H1 H2) as H.
  cbv zeta in H. destruct H as (_ & _ & H & _).
  apply H. intros j _. reflexivity.
Defined.

(** C6, as stated, fails.  A bulk write of two bytes from register 255
    puts the second byte in register 0, not in register 256. *)
Lemma write_bulk_register_wraps :
  lp5569_write_bulk (board := Mock.board Mock.healthy (fun z => z)) tt 255 [1; 2] 2 []
    = (0, [Mock.W 255 1; Mock.W 0 2])
  /\ snd (lp5569_write_bulk (board := Mock.board Mock.healthy (fun z => z)) tt
            255 [1; 2] 2 [])
     <> [Mock.W 255 1; Mock.W (255 + 1) 2].
Proof.
  split.
  - vm_compute. reflexivity.
  - vm_compute. discriminate.
Qed.

Lemma run_program_too_large_witness :
  (32 < 33 mod 256 \/ 32 < 32 mod 256)
  /\ lp5569_run_program (board := gpio_board Wire.no_device (fun z => z)) Wire.bus0
       (repeat 0 33) 33 led_prog 32 []
     = (-1, [])
  /\ lp5569_run_program (board := gpio_board Wire.no_device (fun z => z)) Wire.bus0
       (repeat 7 255) (Z.of_nat (length (repeat 7 255)))
       led_prog (Z.of_nat (length led_prog)) []
     = (-1, []).
Proof.
  assert (H : 32 < 33 mod 256 \/ 32 < 32 mod 256) by (vm_compute; left; reflexivity).
  destruct (run_program_too_large (board := gpio_board Wire.no_device (fun z => z))
              Wire.bus0 (repeat 0 33) led_prog 33 32 []) as (G & _).
  destruct (run_program_too_large (board := gpio_board Wire.no_device (fun z => z))
              Wire.bus0 (repeat 7 255) led_prog 0 0 []) as (_ & A).
  split; [exact H|]. split; [exact (G H)|].
  apply A.
  - rewrite repeat_length. lia.
  - vm_compute. lia.
  - left. rewrite repeat_length. lia.
Defined.

(** C7, as stated, fails.  A mux table of 288 bytes is longer than 32
    bytes, but its length reaches the [uint8_t] parameter as 32: the
    call is not refused, it uploads the first 32 bytes and the program
    and returns 0 on a bus that accepts every write. *)
Lemma run_program_long_array_accepted :
  (32 < length (repeat 1 288))%nat
  /\ lp5569_run_program (board := Mock.board Mock.healthy (fun z => z)) tt
       (repeat 1 288) (Z.of_nat (length (repeat 1 288)))
       led_prog (Z.of_nat (length led_prog)) []
     = (0, events (program_writes (repeat 1 32) led_prog))
  /\ lp5569_run_program (board := Mock.board Mock.healthy (fun z => z)) tt
       (repeat 1 288) (Z.of_nat (length (repeat 1 288)))
       led_prog (Z.of_nat (length led_prog)) []
     <> (-1, []).
Proof.
  split; [vm_compute; lia|].
  split.
  - vm_compute. reflexivity.
  - vm_compute. discriminate.
Qed.

Lemma play_tape_index_check_witness :
  lp5569_play_tape (board := gpio_board Wire.no_device (fun z => z)) Wire.bus0 2 []
    = (-1, [])
  /\ lp5569_play_tape (board := Mock.board Mock.healthy (fun z => z)) tt 1 []
     = lp5569_run_program (board := Mock.board Mock.healthy (fun z => z)) tt
         (nth (Z.to_nat 1) led_mux_tapes []) 32 led_prog 32 [].
Proof.
  split.
  - destruct (play_tape_index_check (board := gpio_board Wire.no_device (fun z => z))
                Wire.bus0 2 []) as (H & _).
    apply H. lia.
  - destruct (play_tape_index_check (board := Mock.board Mock.healthy (fun z => z))
                tt 1 []) as (_ & H).
    destruct (H ltac:(lia)) as (E & _). exact E.
Defined.

Lemma init_retry_bound_witness :
  0 <= 0 < 2
  /\ (Mock.init_attempts
        (snd (lp5569_cmd (board := Mock.board (Mock.settles_after 2) (fun z => z)) 0 []))
      <= 15)%nat.
Proof.
  assert (H : 0 <= 0 < 2) by lia.
  split; [exact H|].
  pose proof (init_retry_bound (Mock.settles_after 2) (fun z => z) 0 H) as G.
  cbv zeta in G. destruct G as (G & _). exact G.
Defined.

(** C1 fails on the code.  With no chip on the bus every attempt of
    [lp5569_init] fails, and with a chip that refuses the load-program
    mode playback fails; the bus is released without error and the
    command returns 0 in both runs.  The (fun z => z) on the bit-banged board
    when no device pulls the data line low. *)
Theorem cmd_returns_zero_after_failure (cpe : Z -> Z) :
  fst (init_retry_loop (board := Mock.board Mock.absent_chip cpe) tt 15 0
         [Mock.Init]) = -1
  /\ lp5569_cmd (board := Mock.board Mock.absent_chip cpe) 0 [] =
     (0, [Mock.Init]
           ++ concat (repeat [Mock.W 0x3F 0xFF; Mock.Udelay 100000] 15)
           ++ [Mock.Deinit])
  /\ fst (lp5569_play_tape (board := Mock.board Mock.refuses_load cpe) tt 0
            ([Mock.Init] ++ events init_writes)) = -1
  /\ lp5569_cmd (board := Mock.board Mock.refuses_load cpe) 0 [] =
     (0, [Mock.Init] ++ events init_writes ++ [Mock.W 0x02 0x54; Mock.Deinit])
  /\ fst (lp5569_init (board := gpio_board Wire.no_device cpe) Wire.bus0
            [I2cBitbang.EvRequest 3; I2cBitbang.EvRequest 2]) = -1
  /\ fst (lp5569_cmd (board := gpio_board Wire.no_device cpe) 0 []) = 0.
Proof.
  repeat split; vm_compute; reflexivity.
Qed.

End ChipExamples.

(** ** What a run adds to the log *)

Section EmitsLogic.

Import Observe.

Context {E : Type}.
Variable I : list E -> Prop.
Hypothesis I_nil : I [].
Hypothesis I_app : forall a b, I a -> I b -> I (a ++ b).

Lemma emits_ret {A : Type} (Q : A -> Prop) (a : A) :
  Q a -> emits I Q (ret a).
Proof.
  intros Ha tr. exists []. simpl. rewrite app_nil_r. auto.
Qed.

Lemma emits_bind {A B : Type} (Q : A -> Prop) (R : B -> Prop)
    (m : M (list E) A) (k : A -> M (list E) B) :
  emits I Q m ->
  (forall a, Q a -> emits I R (k a)) ->
  emits I R (bind m k).
Proof.
  intros Hm Hk tr.
  destruct (Hm tr) as (e1 & S1 & I1 & Q1).
  unfold bind. destruct (m tr) as [a w']. simpl in S1, Q1. subst w'.
  destruct (Hk a Q1 (tr ++ e1)) as (e2 & S2 & I2 & R2).
  exists (e1 ++ e2). rewrite app_assoc. auto.
Qed.

Lemma emits_mono {A : Type} (I' : list E -> Prop) (Q Q' : A -> Prop)
    (m : M (list E) A) :
  (forall evs, I evs -> I' evs) ->
  (forall a, Q a -> Q' a) ->
  emits I Q m -> emits I' Q' m.
Proof.
  intros HI HQ Hm tr. destruct (Hm tr) as (e & S & Ie & Qe).
  exists e. auto.
Qed.

End EmitsLogic.

(** ** The chip code on a board whose calls keep a property of the log *)

Section ChipEmits.

Import Lp5569 Observe.

Context {E B : Type} {board : Board (list E) B}.

Variable I : list E -> Prop.
Variable Qr : Z -> Prop.
Variable Pb : B -> Prop.

Hypothesis I_nil : I [].
Hypothesis I_app : forall a b, I a -> I b -> I (a ++ b).
Hypothesis Qr_0 : Qr 0.
Hypothesis Qr_m1 : Qr (-1).
Hypothesis set_register_emits :
  forall bus addr reg val, Pb bus -> emits I Qr (i2c_set_register bus addr reg val).
Hypothesis udelay_emits : emits I any (udelay (100 * 1000)).
Hypothesis init_emits : emits I (fun rb => Pb (snd rb)) i2c_init.
Hypothesis deinit_emits : forall bus, Pb bus -> emits I any (i2c_deinit bus).

Lemma or_return_emits (c k : M (list E) Z) :
  emits I Qr c -> emits I Qr k -> emits I Qr (or_return c k).
Proof.
  intros Hc Hk. unfold or_return.
  apply (emits_bind I I_app Qr Qr); [exact Hc|].
  intros r Hr. destruct (nonzero r); [apply emits_ret; assumption | exact Hk].
Qed.

Lemma lp5569_set_register_emits (bus : B) (reg val : Z) :
  Pb bus -> emits I Qr (lp5569_set_register bus reg val).
Proof. intros Hb. apply set_register_emits. exact Hb. Qed.

Lemma write_in_order_emits (bus : B) (ws : list (Z * Z)) :
  Pb bus -> emits I Qr (Expected.write_in_order bus ws).
Proof.
  intros Hb. induction ws as [|w ws IH].
  - apply emits_ret; assumption.
  - simpl. apply or_return_emits; [apply lp5569_set_register_emits|]; assumption.
Qed.

Lemma write_bulk_loop_emits (bus : B) (reg : Z) (buf : list Z) (n : nat) :
  Pb bus -> forall i, emits I Qr (write_bulk_loop bus reg buf i n).
Proof.
  intros Hb. induction n as [|n IH]; intros i.
  - apply emits_ret; assumption.
  - simpl. apply (emits_bind I I_app Qr Qr).
    + apply lp5569_set_register_emits. exact Hb.
    + intros r Hr. destruct (nonzero r); [apply emits_ret; assumption | apply IH].
Qed.

Lemma lp5569_write_bulk_emits (bus : B) (reg : Z) (buf : list Z) (n : Z) :
  Pb bus -> emits I Qr (lp5569_write_bulk bus reg buf n).
Proof. intros Hb. apply write_bulk_loop_emits. exact Hb. Qed.

Lemma lp5569_init_emits (bus : B) :
  Pb bus -> emits I Qr (lp5569_init bus).
Proof.
  intros Hb.
  change (lp5569_init bus) with (Expected.write_in_order bus Expected.init_writes).
  apply write_in_order_emits. exact Hb.
Qed.

Lemma lp5569_engine_run_emits (bus : B) :
  Pb bus -> emits I Qr (lp5569_engine_run bus).
Proof.
  intros Hb. unfold lp5569_engine_run.
  apply (emits_bind I I_app Qr Qr);
    [apply lp5569_set_register_emits; exact Hb|].
  intros r Hr. destruct (nonzero r); [apply emits_ret; assumption|].
  apply (emits_bind I I_app Qr Qr);
    [apply lp5569_set_register_emits; exact Hb|].
  intros r' Hr'. destruct (nonzero r'); apply emits_ret; assumption.
Qed.

Lemma lp5569_run_program_emits (bus : B) (mux prog : list Z) (ml pl : Z) :
  Pb bus -> emits I Qr (lp5569_run_program bus mux ml prog pl).
Proof.
  intros Hb. unfold lp5569_run_program. cbv zeta.
  destruct (_ || _); [apply emits_ret; assumption|].
  repeat (apply or_return_emits;
          [first [ apply lp5569_set_register_emits
                 | apply lp5569_write_bulk_emits
                 | apply lp5569_engine_run_emits ]; exact Hb|]).
  apply emits_ret; assumption.
Qed.

Lemma lp5569_play_tape_emits (bus : B) (tape_index : Z) :
  Pb bus -> emits I Qr (lp5569_play_tape bus tape_index).
Proof.
  intros Hb. unfold lp5569_play_tape.
  destruct (_ >=? _); [apply emits_ret; assumption|].
  apply (emits_bind I I_app Qr Qr);
    [apply lp5569_run_program_emits; exact Hb|].
  intros r Hr. destruct (nonzero r); apply emits_ret; assumption.
Qed.

Lemma init_retry_loop_emits (bus : B) (n : nat) :
  Pb bus -> forall r0, Qr r0 -> emits I Qr (init_retry_loop bus n r0).
Proof.
  intros Hb. induction n as [|n IH]; intros r0 H0.
  - apply emits_ret; assumption.
  - simpl. apply (emits_bind I I_app Qr Qr);
      [apply lp5569_init_emits; exact Hb|].
    intros r Hr. destruct (nonzero r); [|apply emits_ret; assumption].
    apply (emits_bind I I_app any Qr); [exact udelay_emits|].
    intros _ _. apply IH. exact Hr.
Qed.

Lemma lp5569_cmd_emits (tape_index : Z) :
  emits I any (lp5569_cmd tape_index).
Proof.
  unfold lp5569_cmd.
  apply (emits_bind I I_app (fun rb => Pb (snd rb)) any); [exact init_emits|].
  intros [r bus] Hb. simpl in Hb.
  destruct (nonzero r) eqn:Hr; [apply emits_ret; [assumption | exact Logic.I]|].
  apply nonzero_false in Hr. subst r.
  apply (emits_bind I I_app Qr any);
    [apply init_retry_loop_emits; assumption|].
  intros r Hr.
  apply (emits_bind I I_app Qr any).
  { destruct (nonzero r); [apply emits_ret; assumption|].
    apply lp5569_play_tape_emits. exact Hb. }
  intros r2 Hr2.
  apply (emits_bind I I_app any any); [apply deinit_emits; exact Hb|].
  intros d _. destruct (nonzero (if nonzero d then 1 else 0));
    (apply emits_ret; [assumption | exact Logic.I]).
Qed.

End ChipEmits.

(** ** More on the bit engine *)

Section BitbangMore.

Import I2cBitbang Wire Observe.

Variable env : trace -> Z.
Variable bus : gpio_i2c.

Lemma gpio_read_sample (tr : trace) :
  exists v rd,
    gpio_read env (sda bus) tr = (v, tr ++ rd) /\ sample bus rd.
Proof.
  unfold gpio_read, gpio_direction_input, gpio_get_value, call, bind, ret, sample.
  destruct (nonzero (env (tr ++ [EvDirIn (sda bus)]))).
  - eexists; exists [EvDirIn (sda bus)]. split; [reflexivity | left; reflexivity].
  - rewrite <- app_assoc. simpl.
    destruct (_ && _); eexists; exists [EvDirIn (sda bus); EvGetValue (sda bus)];
      (split; [reflexivity | right; reflexivity]).
Qed.

Lemma sample_passive (rd : trace) : sample bus rd -> Forall passive rd.
Proof.
  intros [H | H]; subst rd; repeat constructor.
Qed.

Lemma i2c_write_byte_samples (data : Z) (tr : trace) :
  exists nack ra rb,
    i2c_write_byte env bus data tr = (nack, tr ++ byte_events bus data ra rb)
    /\ sample bus ra /\ sample bus rb.
Proof.
  unfold i2c_write_byte.
  erewrite bind_run by apply write_byte_loop_run.
  erewrite bind_run by apply udelay_run.
  unfold i2c_sda_high, i2c_read_bit, get_sda.
  assert (Hsda : forall t, exists ra,
             (set_scl env bus 0 ;; udelay (delay bus) ;; set_sda env bus 1 ;;
              udelay (delay bus) ;; _ <- gpio_read env (sda bus) ;; ret tt) t =
             (tt, t ++ [EvDirOut (scl bus) 0; EvUdelay (delay bus);
                        EvDirOut (sda bus) 1; EvUdelay (delay bus)] ++ ra)
             /\ sample bus ra).
  { intros t.
    erewrite bind_run by apply set_scl_run.
    erewrite bind_run by apply udelay_run.
    erewrite bind_run by apply set_sda_run.
    erewrite bind_run by apply udelay_run.
    match goal with
    | |- context [bind (gpio_read env (sda bus)) _ ?t'] =>
        destruct (gpio_read_sample t') as (v & ra & Er & Sa)
    end.
    erewrite bind_run by apply Er.
    exists ra. split; [|exact Sa].
    unfold ret. repeat rewrite <- app_assoc. reflexivity. }
  assert (Hrd : forall t, exists v rb,
             (set_scl env bus 1 ;; udelay (delay bus) ;;
              value <- gpio_read env (sda bus) ;; udelay (delay bus) ;;
              set_scl env bus 0 ;; udelay (2 * delay bus) ;; ret value) t =
             (v, t ++ [EvDirOut (scl bus) 1; EvUdelay (delay bus)] ++ rb
                   ++ [EvUdelay (delay bus); EvDirOut (scl bus) 0;
                       EvUdelay (2 * delay bus)])
             /\ sample bus rb).
  { intros t.
    erewrite bind_run by apply set_scl_run.
    erewrite bind_run by apply udelay_run.
    match goal with
    | |- context [bind (gpio_read env (sda bus)) _ ?t'] =>
        destruct (gpio_read_sample t') as (v & rb & Er & Sb)
    end.
    erewrite bind_run by apply Er.
    erewrite bind_run by apply udelay_run.
    erewrite bind_run by apply set_scl_run.
    erewrite bind_run by apply udelay_run.
    exists v, rb. split; [|exact Sb].
    unfold ret. repeat rewrite <- app_assoc. reflexivity. }
  match goal with
  | |- context [bind _ _ ?t] => destruct (Hsda t) as (ra & Ea & Sa)
  end.
  erewrite bind_run by apply Ea.
  match goal with
  | |- context [bind _ _ ?t] => destruct (Hrd t) as (nack & rb & Eb & Sb)
  end.
  erewrite bind_run by apply Eb.
  exists nack, ra, rb. split; [|split; assumption].
  unfold ret, byte_events, ack_events. f_equal.
  repeat rewrite <- app_assoc. reflexivity.
Qed.

Ltac wire :=
  repeat first [ apply wire_none
               | apply wire_byte; [assumption | assumption | ] ].

Lemma i2c_set_register_frames (addr reg val : Z) (tr : trace) :
  exists r k body,
    i2c_set_register env bus addr reg val tr =
    (r, tr ++ start_events bus ++ body ++ stop_events bus)
    /\ wire_bytes bus k body
    /\ (1 <= k <= 3)%nat
    /\ zero_or_minus_one r
    /\ (r = 0 -> k = 3%nat).
Proof.
  unfold i2c_set_register, zero_or_minus_one.
  erewrite bind_run by apply i2c_start_run.
  destruct (i2c_write_byte_samples addr (tr ++ start_events bus))
    as (n1 & ra1 & rb1 & E1 & Sa1 & Sb1).
  erewrite bind_run by apply E1.
  destruct (nonzero n1).
  { erewrite bind_run by apply i2c_stop_run.
    exists (-1), 1%nat, (byte_events bus addr ra1 rb1 ++ []).
    split; [unfold ret; f_equal; rewrite app_nil_r;
            repeat rewrite <- app_assoc; reflexivity|].
    split; [wire|].
    repeat split; lia. }
  match goal with
  | |- context [bind (i2c_write_byte env bus reg) _ ?t] =>
      destruct (i2c_write_byte_samples reg t) as (n2 & ra2 & rb2 & E2 & Sa2 & Sb2)
  end.
  erewrite bind_run by apply E2.
  destruct (nonzero n2).
  { erewrite bind_run by apply i2c_stop_run.
    exists (-1), 2%nat,
      (byte_events bus addr ra1 rb1 ++ byte_events bus reg ra2 rb2 ++ []).
    split; [unfold ret; f_equal; rewrite app_nil_r;
            repeat rewrite <- app_assoc; reflexivity|].
    split; [wire|].
    repeat split; lia. }
  match goal with
  | |- context [bind (i2c_write_byte env bus val) _ ?t] =>
      destruct (i2c_write_byte_samples val t) as (n3 & ra3 & rb3 & E3 & Sa3 & Sb3)
  end.
  erewrite bind_run by apply E3.
  destruct (nonzero n3);
    erewrite bind_run by apply i2c_stop_run;
    [exists (-1) | exists 0];
    exists 3%nat,
      (byte_events bus addr ra1 rb1
         ++ byte_events bus reg ra2 rb2 ++ byte_events bus val ra3 rb3 ++ []);
    (split; [unfold ret; f_equal; rewrite app_nil_r;
             repeat rewrite <- app_assoc; reflexivity|]);
    (split; [wire|]);
    repeat split; lia.
Qed.

End BitbangMore.

(** ** Clock pulses, delays and pins of a register write *)

Section WireCosts.

Import I2cBitbang Wire Observe.

Variable env : trace -> Z.
Variable bus : gpio_i2c.

Lemma total_delay_app (a b : trace) :
  total_delay (a ++ b) = total_delay a + total_delay b.
Proof.
  induction a as [|e a IH]; simpl; [reflexivity|].
  destruct e; rewrite IH; lia.
Qed.

Lemma total_delay_sample (rd : trace) : sample bus rd -> total_delay rd = 0.
Proof. intros [H | H]; subst rd; reflexivity. Qed.

Lemma write_bit_args_length (n : nat) : forall data,
  length (write_bit_args n data) = n.
Proof.
  induction n as [|n IH]; intros data; simpl; [reflexivity|].
  rewrite IH. reflexivity.
Qed.

Lemma total_delay_write_bits (args : list Z) :
  total_delay (flat_map (write_bit_events bus) args) =
  4 * delay bus * Z.of_nat (length args).
Proof.
  induction args as [|a args IH]; [simpl; lia|].
  cbn [flat_map]. rewrite total_delay_app, IH.
  cbn [write_bit_events total_delay length]. lia.
Qed.

Lemma total_delay_byte (data : Z) (ra rb : trace) :
  sample bus ra -> sample bus rb ->
  total_delay (byte_events bus data ra rb) = 39 * delay bus.
Proof.
  intros Sa Sb. unfold byte_events, ack_events.
  rewrite total_delay_app, total_delay_write_bits, write_bit_args_length.
  cbn [app total_delay].
  rewrite total_delay_app, (total_delay_sample ra Sa).
  cbn [app total_delay].
  rewrite total_delay_app, (total_delay_sample rb Sb).
  cbn [app total_delay]. lia.
Qed.

Lemma total_delay_wire_bytes (k : nat) (body : trace) :
  wire_bytes bus k body ->
  total_delay body = 39 * Z.of_nat k * delay bus.
Proof.
  induction 1 as [|d ra rb k rest Sa Sb _ IH]; [reflexivity|].
  rewrite total_delay_app, IH, total_delay_byte by assumption. lia.
Qed.

Lemma clock_rises_app (a b : trace) : forall high,
  clock_rises bus high (a ++ b) =
  (clock_rises bus high a + clock_rises bus (clock_after bus high a) b)%nat.
Proof.
  induction a as [|e a IH]; intros high; simpl; [reflexivity|].
  destruct e; try apply IH.
  destruct (gpio =? scl bus); rewrite IH; lia.
Qed.

Lemma clock_after_app (a b : trace) : forall high,
  clock_after bus high (a ++ b) = clock_after bus (clock_after bus high a) b.
Proof.
  induction a as [|e a IH]; intros high; simpl; [reflexivity|].
  destruct e; try apply IH.
  destruct (gpio =? scl bus); apply IH.
Qed.

Lemma clock_sample (rd : trace) (high : bool) :
  sample bus rd ->
  clock_rises bus high rd = 0%nat /\ clock_after bus high rd = high.
Proof. intros [H | H]; subst rd; split; reflexivity. Qed.

Section PinsDiffer.

Hypothesis pins : sda bus <> scl bus.

Let sda_scl : (sda bus =? scl bus) = false := sda_is_not_scl bus pins.

Lemma clock_write_bits (args : list Z) : forall high,
  clock_rises bus high (flat_map (write_bit_events bus) args) = length args
  /\ clock_after bus high (flat_map (write_bit_events bus) args) =
     match args with [] => high | _ => true end.
Proof.
  induction args as [|a args IH]; intros high; [split; reflexivity|].
  cbn [flat_map]. rewrite clock_rises_app, clock_after_app.
  assert (Hbit : clock_rises bus high (write_bit_events bus a) = 1%nat
                 /\ clock_after bus high (write_bit_events bus a) = true).
  { unfold write_bit_events. simpl.
    rewrite !Z.eqb_refl, sda_scl. simpl. destruct high; split; reflexivity. }
  destruct Hbit as [H1 H2]. rewrite H1, H2.
  destruct (IH true) as [R A]. rewrite R, A.
  split; [reflexivity|]. destruct args; reflexivity.
Qed.

Lemma clock_byte (data : Z) (ra rb : trace) (high : bool) :
  sample bus ra -> sample bus rb ->
  clock_rises bus high (byte_events bus data ra rb) = 9%nat
  /\ clock_after bus high (byte_events bus data ra rb) = false.
Proof.
  intros Sa Sb. unfold byte_events.
  rewrite clock_rises_app, clock_after_app.
  destruct (clock_write_bits (write_bit_args 8 data) high) as [R A].
  rewrite R, A, write_bit_args_length.
  change (match write_bit_args 8 data with [] => high | _ => true end) with true.
  unfold ack_events.
  cbn [app clock_rises clock_after].
  rewrite !Z.eqb_refl, sda_scl.
  rewrite !clock_rises_app, !clock_after_app.
  destruct (clock_sample ra (nonzero 0) Sa) as [Ra Aa]. rewrite Ra, Aa.
  cbn [app clock_rises clock_after]. rewrite !Z.eqb_refl.
  rewrite !clock_rises_app, !clock_after_app.
  destruct (clock_sample rb (nonzero 1) Sb) as [Rb Ab]. rewrite Rb, Ab.
  cbn [app clock_rises clock_after]. rewrite !Z.eqb_refl.
  split; reflexivity.
Qed.

Lemma clock_wire_bytes (k : nat) (body : trace) :
  wire_bytes bus k body ->
  forall high,
    clock_rises bus high body = (9 * k)%nat
    /\ clock_after bus high body = match k with O => high | _ => false end.
Proof.
  induction 1 as [|d ra rb k rest Sa Sb _ IH]; intros high; [split; reflexivity|].
  rewrite clock_rises_app, clock_after_app.
  destruct (clock_byte d ra rb high Sa Sb) as [R A]. rewrite R, A.
  destruct (IH false) as [R' A']. rewrite R', A'.
  split; [lia|]. destruct k; reflexivity.
Qed.

(** X3. A byte costs nine clock pulses, eight for the data bits and one
    for the acknowledgment, leaves the clock low and asks for 39 delay
    units in all, whatever the data and whatever the device answers. *)
Theorem write_byte_nine_clocks (data : Z) (tr : trace) (high : bool) :
  exists nack evs,
    i2c_write_byte env bus data tr = (nack, tr ++ evs)
    /\ clock_rises bus high evs = 9%nat
    /\ clock_after bus high evs = false
    /\ total_delay evs = 39 * delay bus.
Proof.
  destruct (i2c_write_byte_samples env bus data tr)
    as (nack & ra & rb & E & Sa & Sb).
  exists nack, (byte_events bus data ra rb).
  destruct (clock_byte data ra rb high Sa Sb) as [R A].
  split; [exact E|]. split; [exact R|]. split; [exact A|].
  apply total_delay_byte; assumption.
Qed.

(** X4. A register write returns 0 or -1 and nothing else.  It puts
    [k] bytes on the wire, [k] being 1, 2 or 3, and 3 whenever it
    returns 0; from a clock that is high it pulses the clock
    [9 * k + 1] times and asks for [8 + 39 * k] delay units. *)
Theorem set_register_cost (addr reg val : Z) (tr : trace) :
  exists r k evs,
    i2c_set_register env bus addr reg val tr = (r, tr ++ evs)
    /\ (r = 0 \/ r = -1)
    /\ (1 <= k <= 3)%nat
    /\ (r = 0 -> k = 3%nat)
    /\ clock_rises bus true evs = (9 * k + 1)%nat
    /\ total_delay evs = (8 + 39 * Z.of_nat k) * delay bus.
Proof.
  destruct (i2c_set_register_frames env bus addr reg val tr)
    as (r & k & body & E & Hw & Hk & Hr & H0).
  exists r, k, (start_events bus ++ body ++ stop_events bus).
  split; [exact E|]. split; [exact Hr|]. split; [exact Hk|]. split; [exact H0|].
  split.
  - rewrite !clock_rises_app.
    destruct (clock_wire_bytes k body Hw
                (clock_after bus true (start_events bus))) as [R A].
    rewrite R, A.
    destruct k as [|k]; [lia|].
    unfold start_events, stop_events. cbn [clock_rises].
    rewrite !Z.eqb_refl, !sda_scl. cbn [clock_rises].
    change (nonzero 1) with true. change (nonzero 0) with false.
    simpl. lia.
  - rewrite !total_delay_app, (total_delay_wire_bytes k body Hw).
    unfold start_events, stop_events. cbn [total_delay]. lia.
Qed.

End PinsDiffer.

End WireCosts.

(** ** Bus discipline of the chip code on the real board *)

Section Discipline.

Import I2cBitbang Wire Observe.

Variable env : trace -> Z.
Variable cpe : Z -> Z.
Variable bus : gpio_i2c.
Hypothesis pins : sda bus <> scl bus.

Lemma balanced_nil : balanced bus [].
Proof. intros st H1 H2. simpl. repeat split; auto. lia. Qed.

Lemma balanced_app (a b : trace) :
  balanced bus a -> balanced bus b -> balanced bus (a ++ b).
Proof.
  intros Ha Hb st H1 H2. rewrite scan_app.
  destruct (Ha st H1 H2) as (A1 & A2 & A3).
  destruct (Hb (scan bus st a) A1 A2) as (B1 & B2 & B3).
  repeat split; auto. lia.
Qed.

Lemma balanced_passive (evs : trace) : Forall passive evs -> balanced bus evs.
Proof.
  intros P st H1 H2. rewrite (scan_passive bus evs P). repeat split; auto. lia.
Qed.

Lemma disciplined_nil : disciplined bus [].
Proof.
  split; [constructor | split; [constructor | apply balanced_nil]].
Qed.

Lemma disciplined_app (a b : trace) :
  disciplined bus a -> disciplined bus b -> disciplined bus (a ++ b).
Proof.
  intros (A1 & A2 & A3) (B1 & B2 & B3). split; [|split].
  - apply Forall_app; auto.
  - apply Forall_app; auto.
  - apply balanced_app; assumption.
Qed.

Lemma scan_wire_bytes (k : nat) (body : trace) :
  wire_bytes bus k body ->
  (1 <= k)%nat ->
  forall st,
    scan bus st body =
    {| scl_high := false; sda_high := true;
       starts := starts st; stops := stops st |}.
Proof.
  induction 1 as [|d ra rb k rest Sa Sb Hr IH]; intros Hk st; [lia|].
  rewrite scan_app.
  rewrite (scan_byte_events bus pins)
    by (apply (sample_passive bus); assumption).
  destruct k as [|k].
  - inversion Hr; subst. reflexivity.
  - rewrite IH by lia. reflexivity.
Qed.

Ltac wire_events :=
  repeat (apply Forall_cons; [split; [simpl; auto | exact Logic.I]|]);
  try apply Forall_nil.

Lemma wire_events_write_bits (args : list Z) :
  Forall (fun e => on_bus bus e /\ keeps_pins e)
         (flat_map (write_bit_events bus) args).
Proof.
  induction args as [|a args IH]; [constructor|].
  cbn [flat_map]. apply Forall_app. split; [|exact IH].
  unfold write_bit_events. wire_events.
Qed.

Lemma wire_events_sample (rd : trace) :
  sample bus rd -> Forall (fun e => on_bus bus e /\ keeps_pins e) rd.
Proof.
  intros [H | H]; subst rd; wire_events.
Qed.

Lemma wire_events_bytes (k : nat) (body : trace) :
  wire_bytes bus k body ->
  Forall (fun e => on_bus bus e /\ keeps_pins e) body.
Proof.
  induction 1 as [|d ra rb k rest Sa Sb _ IH]; [constructor|].
  apply Forall_app. split; [|exact IH].
  unfold byte_events, ack_events.
  apply Forall_app. split; [apply wire_events_write_bits|].
  repeat (first [ apply wire_events_sample; assumption
                | apply Forall_nil
                | apply Forall_cons; [split; [simpl; auto | exact Logic.I]|]
                | apply Forall_app; split ]).
Qed.

Lemma set_register_disciplined (addr reg val : Z) :
  emits (disciplined bus) zero_or_minus_one
        (i2c_set_register env bus addr reg val).
Proof.
  intros tr.
  destruct (i2c_set_register_frames env bus addr reg val tr)
    as (r & k & body & E & Hw & Hk & Hr & _).
  exists (start_events bus ++ body ++ stop_events bus).
  rewrite E. split; [reflexivity|]. split; [|exact Hr].
  assert (Hall : Forall (fun e => on_bus bus e /\ keeps_pins e)
                        (start_events bus ++ body ++ stop_events bus)).
  { apply Forall_app. split.
    - unfold start_events. wire_events.
    - apply Forall_app. split; [apply (wire_events_bytes k); exact Hw|].
      unfold stop_events. wire_events. }
  split; [|split].
  - eapply Forall_impl; [|exact Hall]. intros e [H _]. exact H.
  - eapply Forall_impl; [|exact Hall]. intros e [_ H]. exact H.
  - intros st H1 H2.
    rewrite scan_app, scan_app.
    assert (Hs : scan bus st (start_events bus) =
                 {| scl_high := true; sda_high := false;
                    starts := S (starts st); stops := stops st |}).
    { destruct st as [c d s p]. simpl in H1, H2. subst c d.
      unfold scan, start_events. simpl.
      rewrite !Z.eqb_refl, !(sda_is_not_scl bus pins). simpl. reflexivity. }
    rewrite Hs, (scan_wire_bytes k body Hw) by lia.
    cbn [starts stops].
    rewrite (scan_stop_events bus pins). simpl. repeat split; auto. lia.
Qed.

Lemma udelay_disciplined :
  emits (disciplined bus) (@any unit) (udelay (100 * 1000)).
Proof.
  intros tr. exists [EvUdelay (100 * 1000)].
  split; [reflexivity|]. split; [|exact Logic.I].
  split; [|split].
  - apply Forall_cons; [simpl; auto | apply Forall_nil].
  - repeat constructor.
  - apply balanced_passive. repeat constructor.
Qed.

End Discipline.

Section RealBoard.

Import I2cBitbang Wire Observe Lp5569.

Variable env : trace -> Z.
Variable cpe : Z -> Z.

Local Hint Extern 0 (Board _ _) => exact (gpio_board env cpe) : typeclass_instances.

(** X5. On the real board, whatever the device and the GPIO layer
    answer, each of [lp5569_init], [lp5569_write_bulk],
    [lp5569_run_program] and [lp5569_play_tape] returns 0 or -1, and
    what it adds to the trace touches only the two pins of the bus,
    requests and frees no pin, and brings both lines back high with as
    many stop conditions as start conditions. *)
Theorem chip_calls_disciplined (bus : gpio_i2c) :
  sda bus <> scl bus ->
  emits (disciplined bus) zero_or_minus_one (lp5569_init bus)
  /\ (forall reg buf buf_size,
        emits (disciplined bus) zero_or_minus_one
              (lp5569_write_bulk bus reg buf buf_size))
  /\ (forall mux mux_len prog prog_len,
        emits (disciplined bus) zero_or_minus_one
              (lp5569_run_program bus mux mux_len prog prog_len))
  /\ (forall tape_index,
        emits (disciplined bus) zero_or_minus_one
              (lp5569_play_tape bus tape_index)).
Proof.
  intros pins.
  assert (Hset : forall b addr reg val, b = bus ->
            emits (disciplined bus) zero_or_minus_one
                  (@i2c_set_register _ _ (gpio_board env cpe) b addr reg val)).
  { intros b addr reg val ->. apply set_register_disciplined. exact pins. }
  assert (Q0 : zero_or_minus_one 0) by (left; reflexivity).
  assert (Qm : zero_or_minus_one (-1)) by (right; reflexivity).
  pose proof (disciplined_nil bus) as Hnil.
  pose proof (disciplined_app bus) as Happ.
  split; [|split; [|split]]; intros.
  - apply (lp5569_init_emits _ _ (fun b => b = bus)); auto.
  - apply (lp5569_write_bulk_emits _ _ (fun b => b = bus)); auto.
  - apply (lp5569_run_program_emits _ _ (fun b => b = bus)); auto.
  - apply (lp5569_play_tape_emits _ _ (fun b => b = bus)); auto.
Qed.

(** The pins and the balance of a trace, without the pin ownership. *)
Lemma on_bus_balanced_nil (bus : gpio_i2c) :
  Forall (on_bus bus) [] /\ balanced bus [].
Proof. split; [constructor | apply balanced_nil]. Qed.

Lemma on_bus_balanced_app (bus : gpio_i2c) (a b : trace) :
  Forall (on_bus bus) a /\ balanced bus a ->
  Forall (on_bus bus) b /\ balanced bus b ->
  Forall (on_bus bus) (a ++ b) /\ balanced bus (a ++ b).
Proof.
  intros [A1 A2] [B1 B2]. split.
  - apply Forall_app; auto.
  - apply balanced_app; assumption.
Qed.

Lemma i2c_init_bus :
  emits (fun evs => Forall (on_bus bus0) evs /\ balanced bus0 evs)
        (fun rb : Z * gpio_i2c => snd rb = bus0)
        (I2cBitbang.i2c_init env).
Proof.
  intros tr.
  unfold I2cBitbang.i2c_init, gpio_request, gpio_free, call, bind, ret.
  cbn [scl sda].
  destruct (nonzero (env (tr ++ [EvRequest SCL_PIN]))).
  { exists [EvRequest SCL_PIN]. split; [reflexivity|].
    split; [|reflexivity]. split.
    - apply Forall_cons; [simpl; auto | apply Forall_nil].
    - apply balanced_passive. repeat constructor. }
  destruct (nonzero (env ((tr ++ [EvRequest SCL_PIN]) ++ [EvRequest SDA_PIN]))).
  { exists [EvRequest SCL_PIN; EvRequest SDA_PIN; EvFree SCL_PIN].
    split; [cbn [snd]; repeat rewrite <- app_assoc; reflexivity|].
    split; [|reflexivity]. split.
    - repeat (apply Forall_cons; [simpl; auto|]). apply Forall_nil.
    - apply balanced_passive. repeat constructor. }
  exists [EvRequest SCL_PIN; EvRequest SDA_PIN].
  split; [cbn [snd]; repeat rewrite <- app_assoc; reflexivity|].
  split; [|reflexivity]. split.
  - repeat (apply Forall_cons; [simpl; auto|]). apply Forall_nil.
  - apply balanced_passive. repeat constructor.
Qed.

Lemma i2c_deinit_bus (bus : gpio_i2c) :
  emits (fun evs => Forall (on_bus bus) evs /\ balanced bus evs)
        (@any Z) (I2cBitbang.i2c_deinit env bus).
Proof.
  intros tr.
  unfold I2cBitbang.i2c_deinit, gpio_free, call, bind, ret.
  destruct (nonzero (env (tr ++ [EvFree (scl bus)]))).
  { exists [EvFree (scl bus)]. split; [reflexivity|].
    split; [|exact Logic.I]. split.
    - apply Forall_cons; [simpl; auto | apply Forall_nil].
    - apply balanced_passive. repeat constructor. }
  exists [EvFree (scl bus); EvFree (sda bus)].
  split; [destruct (nonzero _); cbn [snd]; repeat rewrite <- app_assoc; reflexivity|].
  split; [|exact Logic.I]. split.
  - repeat (apply Forall_cons; [simpl; auto|]). apply Forall_nil.
  - apply balanced_passive. repeat constructor.
Qed.

(** X6. The whole command on the real board, for every tape index and
    whatever the hardware answers: every GPIO call it makes is on pin 3
    (clock) or pin 2 (data), every delay is 5, 10 or 100000
    microseconds, and seen from lines that are both high the run ends
    with both lines high and as many stop conditions as start
    conditions. *)
Theorem cmd_stays_on_bus (tape_index : Z) (tr : trace) :
  exists evs,
    snd (lp5569_cmd tape_index tr) = tr ++ evs
    /\ Forall (on_bus bus0) evs
    /\ balanced bus0 evs
    /\ (forall e, In e evs ->
          match e with
          | EvRequest gpio | EvFree gpio | EvDirOut gpio _
          | EvDirIn gpio | EvGetValue gpio => gpio = 3 \/ gpio = 2
          | EvUdelay us => us = 5 \/ us = 10 \/ us = 100000
          end).
Proof.
  assert (pins : sda bus0 <> scl bus0) by (vm_compute; lia).
  assert (H : emits (fun evs => Forall (on_bus bus0) evs /\ balanced bus0 evs)
                    (@any Z) (lp5569_cmd tape_index)).
  { apply (lp5569_cmd_emits _ zero_or_minus_one (fun b => b = bus0)).
    - apply on_bus_balanced_nil.
    - apply on_bus_balanced_app.
    - left; reflexivity.
    - right; reflexivity.
    - intros b addr reg val ->.
      apply (emits_mono (disciplined bus0) _ zero_or_minus_one zero_or_minus_one);
        [intros evs (D1 & _ & D3); auto | auto |].
      apply set_register_disciplined. exact pins.
    - apply (emits_mono (disciplined bus0) _ (@any unit) (@any unit));
        [intros evs (D1 & _ & D3); auto | auto |].
      apply udelay_disciplined.
    - exact i2c_init_bus.
    - intros b ->. apply i2c_deinit_bus. }
  destruct (H tr) as (evs & S & (F & Bal) & _).
  exists evs. split; [exact S|]. split; [exact F|]. split; [exact Bal|].
  intros e He. rewrite Forall_forall in F. specialize (F e He).
  destruct e; simpl in F; cbv in F |- *; intuition lia.
Qed.

End RealBoard.

(** ** Which pins are held *)

Section PinOwnership.

Import I2cBitbang Wire Observe.

Variable env : trace -> Z.

Lemma held_app (a b : trace) : forall pre pins,
  held env pre (a ++ b) pins = held env (pre ++ a) b (held env pre a pins).
Proof.
  induction a as [|e a IH]; intros pre pins.
  - simpl. rewrite app_nil_r. reflexivity.
  - cbn [app held]. rewrite IH. rewrite <- app_assoc. reflexivity.
Qed.

Lemma held_keeps (evs : trace) : forall pre pins,
  Forall keeps_pins evs -> held env pre evs pins = pins.
Proof.
  induction evs as [|e evs IH]; intros pre pins H; [reflexivity|].
  inversion H as [|e' evs' He Hevs]; subst.
  cbn [held]. rewrite IH by assumption.
  destruct e; simpl in He; try contradiction; reflexivity.
Qed.

Lemma i2c_init_run (tr : trace) :
  let r1 := env (tr ++ [EvRequest 3]) in
  let r2 := env (tr ++ [EvRequest 3; EvRequest 2]) in
  i2c_init env tr =
  if nonzero r1 then ((r1, bus0), tr ++ [EvRequest 3])
  else if nonzero r2
       then ((r2, bus0), tr ++ [EvRequest 3; EvRequest 2; EvFree 3])
       else ((0, bus0), tr ++ [EvRequest 3; EvRequest 2]).
Proof.
  cbv zeta. unfold i2c_init, gpio_request, gpio_free, call, bind, ret.
  cbn [scl sda]. change SCL_PIN with 3. change SDA_PIN with 2.
  change ({| scl := 3; sda := 2; delay := 5 |}) with bus0.
  destruct (nonzero (env (tr ++ [EvRequest 3]))); [reflexivity|].
  repeat rewrite <- app_assoc. cbn [app].
  destruct (nonzero _); repeat rewrite <- app_assoc; reflexivity.
Qed.

Lemma i2c_deinit_run (bus : gpio_i2c) (tr : trace) :
  let f1 := env (tr ++ [EvFree (scl bus)]) in
  let f2 := env (tr ++ [EvFree (scl bus); EvFree (sda bus)]) in
  i2c_deinit env bus tr =
  if nonzero f1 then (f1, tr ++ [EvFree (scl bus)])
  else (if nonzero f2 then f2 else 0,
        tr ++ [EvFree (scl bus); EvFree (sda bus)]).
Proof.
  cbv zeta. unfold i2c_deinit, gpio_free, call, bind, ret.
  destruct (nonzero (env (tr ++ [EvFree (scl bus)]))); [reflexivity|].
  repeat rewrite <- app_assoc. cbn [app].
  destruct (nonzero _); repeat rewrite <- app_assoc; reflexivity.
Qed.

(** X1. [i2c_init] is all or nothing.  It returns 0 exactly when both
    requests returned 0, and then holds the clock and the data pin.
    When the clock pin is refused the data pin is not even requested.
    When the data pin is refused the clock pin is freed again, so no
    pin is held after a failed call as long as that free succeeds.
    The bus handle is always (clock 3, data 2, delay 5). *)
Theorem i2c_init_all_or_nothing (tr : trace) :
  let r1 := env (tr ++ [EvRequest 3]) in
  let r2 := env (tr ++ [EvRequest 3; EvRequest 2]) in
  let f := env (tr ++ [EvRequest 3; EvRequest 2; EvFree 3]) in
  exists r evs,
    i2c_init env tr = ((r, bus0), tr ++ evs)
    /\ (r = 0 <-> r1 = 0 /\ r2 = 0)
    /\ (r = 0 -> held env tr evs [] = [2; 3])
    /\ (r <> 0 -> (r1 = 0 -> f = 0) -> held env tr evs [] = [])
    /\ (r1 <> 0 -> r = r1 /\ evs = [EvRequest 3])
    /\ (r1 = 0 -> r2 <> 0 -> r = r2).
Proof.
  intros r1 r2 f.
  pose proof (i2c_init_run tr) as E. cbv zeta in E. fold r1 in E. fold r2 in E.
  rewrite E. clear E.
  destruct (nonzero r1) eqn:H1.
  - apply nonzero_true in H1.
    exists r1, [EvRequest 3]. split; [reflexivity|].
    split; [split; [intros; contradiction | intros [? _]; contradiction]|].
    split; [intros; contradiction|].
    split.
    { intros _ _. cbn [held]. fold r1.
      apply Z.eqb_neq in H1. rewrite H1. reflexivity. }
    split; [auto | intros; contradiction].
  - apply nonzero_false in H1.
    destruct (nonzero r2) eqn:H2.
    + apply nonzero_true in H2.
      exists r2, [EvRequest 3; EvRequest 2; EvFree 3]. split; [reflexivity|].
      split; [split; [intros; contradiction | intros [_ ?]; contradiction]|].
      split; [intros; contradiction|].
      split.
      { intros _ Hf. specialize (Hf H1).
        cbn [held]. repeat rewrite <- app_assoc. cbn [app].
        fold r1. fold r2. fold f. rewrite H1, Hf.
        apply Z.eqb_neq in H2. rewrite H2. reflexivity. }
      split; [intros; contradiction | auto].
    + apply nonzero_false in H2.
      exists 0, [EvRequest 3; EvRequest 2]. split; [reflexivity|].
      split; [split; auto|].
      split.
      { intros _. cbn [held]. repeat rewrite <- app_assoc. cbn [app].
        fold r1. fold r2. rewrite H1, H2. reflexivity. }
      split; [intros; contradiction|].
      split; intros; contradiction.
Qed.

(** X2. [i2c_deinit] frees the clock pin, then the data pin, and
    returns the first failure.  It returns 0 exactly when both frees
    returned 0, and then no pin of the bus is held.  When freeing the
    clock pin fails the data pin is not freed: both pins stay held. *)
Theorem i2c_deinit_first_failure (bus : gpio_i2c) (tr : trace) :
  sda bus <> scl bus ->
  let f1 := env (tr ++ [EvFree (scl bus)]) in
  let f2 := env (tr ++ [EvFree (scl bus); EvFree (sda bus)]) in
  exists r evs,
    i2c_deinit env bus tr = (r, tr ++ evs)
    /\ (r = 0 <-> f1 = 0 /\ f2 = 0)
    /\ (r = 0 -> held env tr evs [sda bus; scl bus] = [])
    /\ (f1 <> 0 ->
        r = f1 /\ evs = [EvFree (scl bus)]
        /\ held env tr evs [sda bus; scl bus] = [sda bus; scl bus])
    /\ (f1 = 0 -> f2 <> 0 ->
        r = f2 /\ held env tr evs [sda bus; scl bus] = [sda bus]).
Proof.
  intros pins f1 f2.
  assert (Hrm : remove Z.eq_dec (scl bus) [sda bus; scl bus] = [sda bus]).
  { simpl. destruct (Z.eq_dec (scl bus) (sda bus)) as [E | _];
      [symmetry in E; contradiction|].
    destruct (Z.eq_dec (scl bus) (scl bus)); [reflexivity | contradiction]. }
  assert (Hrm2 : remove Z.eq_dec (sda bus) [sda bus] = []).
  { simpl. destruct (Z.eq_dec (sda bus) (sda bus)); [reflexivity | contradiction]. }
  pose proof (i2c_deinit_run bus tr) as E. cbv zeta in E. fold f1 in E. fold f2 in E.
  rewrite E. clear E.
  destruct (nonzero f1) eqn:H1.
  - apply nonzero_true in H1.
    exists f1, [EvFree (scl bus)]. split; [reflexivity|].
    split; [split; [intros; contradiction | intros [? _]; contradiction]|].
    split; [intros; contradiction|].
    split; [|intros; contradiction].
    intros _. split; [reflexivity|]. split; [reflexivity|].
    cbn [held]. fold f1. apply Z.eqb_neq in H1. rewrite H1. reflexivity.
  - apply nonzero_false in H1.
    exists (if nonzero f2 then f2 else 0), [EvFree (scl bus); EvFree (sda bus)].
    split; [reflexivity|].
    assert (Hheld : held env tr [EvFree (scl bus); EvFree (sda bus)]
                         [sda bus; scl bus] =
                    if f2 =? 0 then [] else [sda bus]).
    { cbn [held]. repeat rewrite <- app_assoc. cbn [app].
      fold f1. fold f2. rewrite H1. cbn [Z.eqb]. rewrite Hrm.
      destruct (f2 =? 0); [exact Hrm2 | reflexivity]. }
    destruct (nonzero f2) eqn:H2.
    + apply nonzero_true in H2.
      split; [split; [intros; contradiction | intros [_ ?]; contradiction]|].
      split; [intros; contradiction|].
      split; [intros; contradiction|].
      intros _ _. split; [reflexivity|].
      rewrite Hheld. apply Z.eqb_neq in H2. rewrite H2. reflexivity.
    + apply nonzero_false in H2.
      split; [split; auto|].
      split; [intros _; rewrite Hheld, H2; reflexivity|].
      split; intros; contradiction.
Qed.

End PinOwnership.

Section CommandLifecycle.

Import I2cBitbang Wire Observe Lp5569.

Variable env : trace -> Z.
Variable cpe : Z -> Z.

Local Hint Extern 0 (Board _ _) => exact (gpio_board env cpe) : typeclass_instances.

Lemma retry_then_play_keeps_pins (tape_index : Z) :
  emits (disciplined bus0) zero_or_minus_one
        (r <- init_retry_loop bus0 15 0 ;;
         if nonzero r then ret r else lp5569_play_tape bus0 tape_index).
Proof.
  assert (pins : sda bus0 <> scl bus0) by (vm_compute; lia).
  assert (Hset : forall b addr reg val, b = bus0 ->
            emits (disciplined bus0) zero_or_minus_one
                  (@i2c_set_register _ _ (gpio_board env cpe) b addr reg val)).
  { intros b addr reg val ->. apply set_register_disciplined. exact pins. }
  assert (Q0 : zero_or_minus_one 0) by (left; reflexivity).
  assert (Qm : zero_or_minus_one (-1)) by (right; reflexivity).
  apply (emits_bind _ (disciplined_app bus0) zero_or_minus_one).
  - apply (init_retry_loop_emits _ _ (fun b => b = bus0));
      auto using disciplined_nil, disciplined_app.
    apply udelay_disciplined.
  - intros r Hr. destruct (nonzero r).
    + apply emits_ret; [apply disciplined_nil | exact Hr].
    + apply (lp5569_play_tape_emits _ _ (fun b => b = bus0));
        auto using disciplined_nil, disciplined_app.
Qed.

(** X7. The command gives back what it took.  On the real board, when
    every [gpio_free] the command makes succeeds, no pin is held when
    it returns, whether the pins could be acquired or not, whether the
    chip answered or not, and for every tape index. *)
Theorem cmd_releases_pins (tape_index : Z) (tr : trace) :
  (forall h gpio, env (h ++ [EvFree gpio]) = 0) ->
  exists evs,
    snd (lp5569_cmd tape_index tr) = tr ++ evs
    /\ held env tr evs [] = [].
Proof.
  intros Hfree.
  unfold lp5569_cmd. unfold bind at 1.
  change (@Lp5569.i2c_init _ _ (gpio_board env cpe)) with (I2cBitbang.i2c_init env).
  pose proof (i2c_init_run env tr) as E. cbv zeta in E. rewrite E. clear E.
  destruct (nonzero (env (tr ++ [EvRequest 3]))) eqn:H1.
  { cbn [nonzero]. rewrite H1. exists [EvRequest 3].
    split; [reflexivity|]. cbn [held].
    apply nonzero_true in H1. apply Z.eqb_neq in H1. rewrite H1. reflexivity. }
  destruct (nonzero (env (tr ++ [EvRequest 3; EvRequest 2]))) eqn:H2.
  { rewrite H2. exists [EvRequest 3; EvRequest 2; EvFree 3].
    split; [reflexivity|]. cbn [held].
    repeat rewrite <- app_assoc. cbn [app].
    apply nonzero_false in H1. apply nonzero_true in H2.
    rewrite H1. apply Z.eqb_neq in H2. rewrite H2.
    replace (tr ++ [EvRequest 3; EvRequest 2; EvFree 3])
      with ((tr ++ [EvRequest 3; EvRequest 2]) ++ [EvFree 3])
      by (rewrite <- app_assoc; reflexivity).
    rewrite Hfree. reflexivity. }
  change (nonzero 0) with false. cbv iota.
  set (t0 := tr ++ [EvRequest 3; EvRequest 2]).
  destruct (retry_then_play_keeps_pins tape_index t0)
    as (mid & Smid & (_ & Kmid & _) & _).
  unfold bind at 1 in Smid.
  unfold bind at 1. unfold trace in *.
  destruct (init_retry_loop bus0 15 0 t0) as [r1 t1].
  unfold bind at 1.
  destruct ((if nonzero r1 then ret r1 else lp5569_play_tape bus0 tape_index) t1)
    as [r2 t2].
  cbn [snd] in Smid. subst t2.
  unfold bind at 1.
  change (@Lp5569.i2c_deinit _ _ (gpio_board env cpe) bus0)
    with (I2cBitbang.i2c_deinit env bus0).
  pose proof (i2c_deinit_run env bus0 (t0 ++ mid)) as E. cbv zeta in E.
  rewrite E. clear E. cbn [scl sda bus0]. change SCL_PIN with 3. change SDA_PIN with 2.
  rewrite (Hfree (t0 ++ mid) 3). change (nonzero 0) with false. cbv iota.
  replace (env ((t0 ++ mid) ++ [EvFree 3; EvFree 2])) with 0
    by (symmetry;
        replace ((t0 ++ mid) ++ [EvFree 3; EvFree 2])
          with (((t0 ++ mid) ++ [EvFree 3]) ++ [EvFree 2])
          by (rewrite <- app_assoc; reflexivity);
        apply Hfree).
  change (nonzero 0) with false. cbv iota.
  exists ([EvRequest 3; EvRequest 2] ++ mid ++ [EvFree 3; EvFree 2]).
  split.
  { unfold ret. cbn [snd]. unfold t0. repeat rewrite <- app_assoc. reflexivity. }
  apply nonzero_false in H1. apply nonzero_false in H2.
  assert (Hacq : held env tr [EvRequest 3; EvRequest 2] [] = [2; 3]).
  { cbn [held]. rewrite H1. cbn [Z.eqb].
    replace ((tr ++ [EvRequest 3]) ++ [EvRequest 2])
      with (tr ++ [EvRequest 3; EvRequest 2])
      by (rewrite <- app_assoc; reflexivity).
    rewrite H2. reflexivity. }
  rewrite held_app, held_app, Hacq.
  rewrite (held_keeps env mid) by exact Kmid.
  cbn [held]. rewrite !Hfree. reflexivity.
Qed.

End CommandLifecycle.

(** ** Failed pin writes go unnoticed *)

Section ReadPoints.

Import I2cBitbang Wire Observe.

Variable env : trace -> Z.
Variable bus : gpio_i2c.

Ltac run :=
  repeat (erewrite bind_run
            by first [ apply udelay_run | apply set_sda_run | apply set_scl_run ]).

Lemma i2c_sda_high_read (tr : trace) :
  i2c_sda_high env bus tr =
  let (_, t) := gpio_read env (sda bus)
                  (tr ++ [EvDirOut (scl bus) 0; EvUdelay (delay bus);
                          EvDirOut (sda bus) 1; EvUdelay (delay bus)]) in
  (tt, t).
Proof.
  unfold i2c_sda_high, get_sda. run.
  repeat rewrite <- app_assoc. reflexivity.
Qed.

Lemma i2c_read_bit_read (tr : trace) :
  i2c_read_bit env bus tr =
  let (v, t) := gpio_read env (sda bus)
                  (tr ++ [EvDirOut (scl bus) 1; EvUdelay (delay bus)]) in
  (v, t ++ [EvUdelay (delay bus); EvDirOut (scl bus) 0;
            EvUdelay (2 * delay bus)]).
Proof.
  unfold i2c_read_bit, get_sda. run.
  repeat rewrite <- app_assoc. cbn [app]. unfold bind at 1.
  destruct (gpio_read env (sda bus) _) as [v t]. run.
  unfold ret. repeat rewrite <- app_assoc. reflexivity.
Qed.

Lemma i2c_write_byte_read (data : Z) (tr : trace) :
  i2c_write_byte env bus data tr =
  let (_, t) := i2c_sda_high env bus
                  ((tr ++ flat_map (write_bit_events bus) (write_bit_args 8 data))
                     ++ [EvUdelay (delay bus)]) in
  i2c_read_bit env bus t.
Proof.
  unfold i2c_write_byte.
  erewrite bind_run by apply write_byte_loop_run.
  erewrite bind_run by apply udelay_run.
  unfold bind at 1. destruct (i2c_sda_high env bus _) as [u t].
  unfold bind, ret. destruct (i2c_read_bit env bus t). reflexivity.
Qed.

Lemma i2c_set_register_bytes (addr reg val : Z) (tr : trace) :
  i2c_set_register env bus addr reg val tr =
  let (n1, t1) := i2c_write_byte env bus addr (tr ++ start_events bus) in
  if nonzero n1 then (-1, t1 ++ stop_events bus)
  else
    let (n2, t2) := i2c_write_byte env bus reg t1 in
    if nonzero n2 then (-1, t2 ++ stop_events bus)
    else
      let (n3, t3) := i2c_write_byte env bus val t2 in
      (if nonzero n3 then -1 else 0, t3 ++ stop_events bus).
Proof.
  unfold i2c_set_register.
  erewrite bind_run by apply i2c_start_run.
  unfold bind at 1. destruct (i2c_write_byte env bus addr _) as [n1 t1].
  destruct (nonzero n1).
  { erewrite bind_run by apply i2c_stop_run. reflexivity. }
  unfold bind at 1. destruct (i2c_write_byte env bus reg t1) as [n2 t2].
  destruct (nonzero n2).
  { erewrite bind_run by apply i2c_stop_run. reflexivity. }
  unfold bind at 1. destruct (i2c_write_byte env bus val t2) as [n3 t3].
  destruct (nonzero n3); erewrite bind_run by apply i2c_stop_run; reflexivity.
Qed.

End ReadPoints.

Section OutputErrors.

Import I2cBitbang Wire Observe.

Variables env1 env2 : trace -> Z.
Variable bus : gpio_i2c.
Hypothesis same : same_inputs env1 env2.

Lemma gpio_read_same (gpio : Z) (tr : trace) :
  gpio_read env1 gpio tr = gpio_read env2 gpio tr.
Proof.
  unfold gpio_read, gpio_direction_input, gpio_get_value, call, bind, ret.
  rewrite (same tr (EvDirIn gpio)) by discriminate.
  destruct (nonzero (env2 (tr ++ [EvDirIn gpio]))); [reflexivity|].
  rewrite (same (tr ++ [EvDirIn gpio]) (EvGetValue gpio)) by discriminate.
  reflexivity.
Qed.

Lemma i2c_write_byte_same (data : Z) (tr : trace) :
  i2c_write_byte env1 bus data tr = i2c_write_byte env2 bus data tr.
Proof.
  rewrite !i2c_write_byte_read, !i2c_sda_high_read, gpio_read_same.
  destruct (gpio_read env2 (sda bus) _) as [v t].
  rewrite !i2c_read_bit_read, gpio_read_same. reflexivity.
Qed.

(** X8. A register write never notices a failed pin write.  Two boards
    that answer alike to every call except [gpio_direction_output]
    give the same result and the same trace: the value that
    [gpio_direction_output] returns is dropped by [set_sda] and
    [set_scl]. *)
Theorem set_register_ignores_output_errors (addr reg val : Z) (tr : trace) :
  i2c_set_register env1 bus addr reg val tr =
  i2c_set_register env2 bus addr reg val tr.
Proof.
  rewrite !i2c_set_register_bytes, i2c_write_byte_same.
  destruct (i2c_write_byte env2 bus addr _) as [n1 t1].
  destruct (nonzero n1); [reflexivity|].
  rewrite i2c_write_byte_same.
  destruct (i2c_write_byte env2 bus reg t1) as [n2 t2].
  destruct (nonzero n2); [reflexivity|].
  rewrite i2c_write_byte_same. reflexivity.
Qed.

End OutputErrors.

(** ** Reading the data line *)

Section Sampling.

Import I2cBitbang Wire Observe.

Variable env : trace -> Z.

(** X9. [gpio_read] never hands on a level other than 0 or 1.  When the
    pin cannot be switched to input the error is returned and the pin
    is not sampled.  Otherwise the sampled value is returned when it is
    0 or 1, and any other value is turned into -22 (-EINVAL). *)
Theorem gpio_read_levels (gpio : Z) (tr : trace) :
  let d := env (tr ++ [EvDirIn gpio]) in
  let v := env (tr ++ [EvDirIn gpio; EvGetValue gpio]) in
  (d <> 0 -> gpio_read env gpio tr = (d, tr ++ [EvDirIn gpio]))
  /\ (d = 0 ->
      snd (gpio_read env gpio tr) = tr ++ [EvDirIn gpio; EvGetValue gpio]
      /\ (fst (gpio_read env gpio tr) = 0
          \/ fst (gpio_read env gpio tr) = 1
          \/ fst (gpio_read env gpio tr) = -22)
      /\ (v = 0 \/ v = 1 -> fst (gpio_read env gpio tr) = v)
      /\ (v <> 0 -> v <> 1 -> fst (gpio_read env gpio tr) = -22)).
Proof.
  intros d v.
  unfold gpio_read, gpio_direction_input, gpio_get_value, call, bind, ret.
  fold d. split.
  - intros Hd. apply nonzero_true in Hd. rewrite Hd. reflexivity.
  - intros Hd. apply nonzero_false in Hd. rewrite Hd.
    rewrite <- app_assoc. cbn [app]. fold v.
    assert (Hc : (nonzero v && negb (v =? 1) = true /\ v <> 0 /\ v <> 1)
                 \/ (nonzero v && negb (v =? 1) = false /\ (v = 0 \/ v = 1))).
    { unfold nonzero.
      destruct (Z.eqb_spec v 0); destruct (Z.eqb_spec v 1); simpl; auto. }
    unfold EINVAL.
    destruct Hc as [(Hb & N0 & N1) | (Hb & H01)]; rewrite Hb; cbn [fst snd].
    + split; [reflexivity|]. split; [auto|].
      split; [intros [? | ?]; contradiction | auto].
    + split; [reflexivity|]. split; [destruct H01; auto|].
      split; [auto | intros; destruct H01; contradiction].
Qed.

(** X10. An input failure on the data pin looks like a missing
    acknowledgment.  On a board where [gpio_direction_input] fails
    whenever it is called, a register write sends the address byte
    only, issues the stop condition and returns -1; the GPIO error code
    itself is not returned. *)
Theorem set_register_input_failure (bus : gpio_i2c)
    (addr reg val : Z) (tr : trace) :
  (forall h gpio, env (h ++ [EvDirIn gpio]) <> 0) ->
  i2c_set_register env bus addr reg val tr =
  (-1, tr ++ start_events bus
          ++ byte_events bus addr [EvDirIn (sda bus)] [EvDirIn (sda bus)]
          ++ stop_events bus).
Proof.
  intros Hfail.
  assert (Hread : forall h, gpio_read env (sda bus) h =
                            (env (h ++ [EvDirIn (sda bus)]), h ++ [EvDirIn (sda bus)])).
  { intros h.
    unfold gpio_read, gpio_direction_input, gpio_get_value, call, bind, ret.
    pose proof (Hfail h (sda bus)) as H. apply nonzero_true in H.
    rewrite H. reflexivity. }
  rewrite i2c_set_register_bytes, i2c_write_byte_read, i2c_sda_high_read, Hread.
  rewrite i2c_read_bit_read, Hread.
  match goal with
  | |- context [nonzero (env ?h)] =>
      let H := fresh in
      assert (H : nonzero (env h) = true);
        [apply nonzero_true;
         match h with ?h' ++ [EvDirIn ?g] => apply (Hfail h' g) end
        | rewrite H ]
  end.
  f_equal. unfold byte_events, ack_events.
  repeat rewrite <- app_assoc. reflexivity.
Qed.

End Sampling.

(** ** More on the chip protocol against the recording bus *)

Section MockMore.

Import Lp5569 Expected Observe.

Variable env : Mock.log -> Z.
Variable cpe : Z -> Z.

Local Hint Extern 0 (Board _ _) => exact (Mock.board env cpe) : typeclass_instances.

(** X11. [lp5569_init] makes thirteen writes in this order: reset,
    enable, oscillator and auto-increment, program start, then the
    currents of the red, the green and the blue LEDs.  It stops at the
    first write that is refused and returns what that write returned;
    it returns 0 after all thirteen. *)
Theorem init_write_sequence (l : Mock.log) :
  let expected :=
    events [ (LP5569_REG_RESET, 0xFF);
             (LP5569_REG_CONFIG, 0x40);
             (LP5569_REG_MISC, 0x59);
             (LP5569_REG_ENGINE1_PROG_START, 0x00);
             (LP5569_REG_LED0_CURRENT, RED_CURRENT);
             (LP5569_REG_LED3_CURRENT, RED_CURRENT);
             (LP5569_REG_LED6_CURRENT, RED_CURRENT);
             (LP5569_REG_LED1_CURRENT, GREEN_CURRENT);
             (LP5569_REG_LED4_CURRENT, GREEN_CURRENT);
             (LP5569_REG_LED7_CURRENT, GREEN_CURRENT);
             (LP5569_REG_LED2_CURRENT, BLUE_CURRENT);
             (LP5569_REG_LED5_CURRENT, BLUE_CURRENT);
             (LP5569_REG_LED8_CURRENT, BLUE_CURRENT) ] in
  let run := lp5569_init (board := Mock.board env cpe) tt l in
  (exists k, (1 <= k <= 13)%nat /\ snd run = l ++ firstn k expected)
  /\ (fst run = 0 -> snd run = l ++ expected)
  /\ ((forall j, (1 <= j <= 13)%nat -> env (l ++ firstn j expected) = 0) ->
      run = (0, l ++ expected))
  /\ (forall k, (1 <= k <= 13)%nat ->
        (forall j, (1 <= j < k)%nat -> env (l ++ firstn j expected) = 0) ->
        env (l ++ firstn k expected) <> 0 ->
        run = (env (l ++ firstn k expected), l ++ firstn k expected)).
Proof.
  intros expected run.
  change expected with (events init_writes).
  change run with (write_in_order (board := Mock.board env cpe) tt init_writes l).
  destruct (write_in_order_prefix env cpe init_writes l)
    as (k & Hk & Hs & H0 & H1).
  specialize (H1 ltac:(discriminate)).
  change (length init_writes) with 13%nat in *.
  split; [exists k; split; [lia | exact Hs]|].
  split; [|split].
  - intros H. etransitivity; [exact Hs|]. rewrite (H0 H). reflexivity.
  - intros Hok. apply write_in_order_all. exact Hok.
  - intros k' Hk' Hok Hfail.
    apply write_in_order_first_failure; assumption.
Qed.

(** X12. A refused write ends [lp5569_run_program] at once: when the
    [k]-th write of the upload sequence is the first one refused, the
    call makes exactly [k] writes and returns what that write returned.
    Nothing is retried and nothing already written is undone. *)
Theorem run_program_first_failure (mux prog : list Z) (l : Mock.log) (k : nat) :
  (length mux <= 32)%nat ->
  (length prog <= 32)%nat ->
  let expected := events (program_writes mux prog) in
  (1 <= k <= length expected)%nat ->
  (forall j, (1 <= j < k)%nat -> env (l ++ firstn j expected) = 0) ->
  env (l ++ firstn k expected) <> 0 ->
  lp5569_run_program (board := Mock.board env cpe) tt
    mux (Z.of_nat (length mux)) prog (Z.of_nat (length prog)) l
  = (env (l ++ firstn k expected), l ++ firstn k expected).
Proof.
  intros Hm Hp expected Hk Hok Hfail.
  rewrite lp5569_run_program_in_order by assumption.
  apply write_in_order_first_failure; try assumption.
  unfold expected, events in Hk. rewrite length_map in Hk. exact Hk.
Qed.

Lemma retry_then_play_chip_events (tape : Z) (r0 : Z) :
  emits (Forall chip_event) (@any Z)
        (r <- init_retry_loop tt 15 r0 ;;
         if nonzero r then ret r else lp5569_play_tape tt tape).
Proof.
  assert (Hset : forall (b : unit) addr reg val, True ->
            emits (Forall chip_event) (@any Z)
                  (@i2c_set_register _ _ (Mock.board env cpe) b addr reg val)).
  { intros b addr reg val _ tr. exists [Mock.SetRegister addr reg val].
    split; [reflexivity|]. split; [|exact Logic.I].
    repeat constructor. }
  assert (Hdelay : emits (Forall chip_event) (@any unit)
                         (@udelay _ _ (Mock.board env cpe) (100 * 1000))).
  { intros tr. exists [Mock.Udelay (100 * 1000)].
    split; [reflexivity|]. split; [|exact Logic.I]. repeat constructor. }
  assert (Happ : forall a b : Mock.log,
             Forall chip_event a -> Forall chip_event b ->
             Forall chip_event (a ++ b))
    by (intros; apply Forall_app; auto).
  apply (emits_bind _ Happ (@any Z)).
  - apply (init_retry_loop_emits _ _ (fun _ => True));
      auto; exact Logic.I.
  - intros r _. destruct (nonzero r).
    + apply emits_ret; [constructor | exact Logic.I].
    + apply (lp5569_play_tape_emits _ _ (fun _ => True)); auto; exact Logic.I.
Qed.

(** X13. The command acquires the bus first and releases it last.  When
    [i2c_init] fails nothing else is called and the error goes through
    [cmd_process_error].  When it succeeds the log is [Init], then
    chip writes and delays only, then [Deinit]: the teardown is called
    exactly once, on every path, whatever the chip answered. *)
Theorem cmd_init_and_teardown (tape : Z) :
  (env [Mock.Init] <> 0 ->
   lp5569_cmd (board := Mock.board env cpe) tape [] =
   (cpe (env [Mock.Init]), [Mock.Init]))
  /\ (env [Mock.Init] = 0 ->
      exists mid,
        snd (lp5569_cmd (board := Mock.board env cpe) tape []) =
          [Mock.Init] ++ mid ++ [Mock.Deinit]
        /\ Forall chip_event mid).
Proof.
  rewrite lp5569_cmd_run. split.
  - intros H. apply nonzero_true in H. rewrite H. reflexivity.
  - intros H. pose proof H as Hz. apply nonzero_false in H. rewrite H.
    cbv zeta. cbn [snd].
    destruct (retry_then_play_chip_events tape (env [Mock.Init]) [Mock.Init])
      as (mid & Smid & Fmid & _).
    exists mid. split; [|exact Fmid].
    unfold bind in Smid.
    destruct (init_retry_loop tt 15 (env [Mock.Init]) [Mock.Init]) as [r l1].
    cbn [fst snd].
    destruct (nonzero r).
    + unfold ret in Smid. cbn [snd] in Smid |- *. rewrite Smid.
      repeat rewrite <- app_assoc. reflexivity.
    + rewrite Smid. repeat rewrite <- app_assoc. reflexivity.
Qed.

(** X14. When the teardown fails after an operational failure, the
    operational error is the one handed to [cmd_process_error]: the
    result of the retry loop if it is not 0, else the result of
    [lp5569_play_tape]. *)
Theorem cmd_operational_error_first (tape : Z) :
  let a := init_retry_loop (board := Mock.board env cpe) tt 15
             (env [Mock.Init]) [Mock.Init] in
  let p := if nonzero (fst a) then a
           else lp5569_play_tape (board := Mock.board env cpe) tt tape (snd a) in
  env [Mock.Init] = 0 ->
  fst p <> 0 ->
  env (snd p ++ [Mock.Deinit]) <> 0 ->
  lp5569_cmd (board := Mock.board env cpe) tape [] =
  (cpe (fst p), snd p ++ [Mock.Deinit]).
Proof.
  intros a p Hinit Hop Hdown.
  rewrite lp5569_cmd_run.
  apply nonzero_false in Hinit. rewrite Hinit. cbv zeta.
  fold a. fold p.
  apply nonzero_true in Hop. apply nonzero_true in Hdown.
  rewrite Hdown, Hop. reflexivity.
Qed.

End MockMore.

(** ** Pad control *)

Section PadFacts.

Import PadCtrl.

Lemma testbit_field_set (v lo w x n : Z) :
  0 <= lo -> 0 <= w -> 0 <= n ->
  Z.testbit (field_set v lo w x) n =
  if (lo <=? n) && (n <? lo + w) then Z.testbit x (n - lo) else Z.testbit v n.
Proof.
  intros Hlo Hw Hn. unfold field_set.
  rewrite Z.lor_spec, Z.ldiff_spec, !Z.shiftl_spec, Z.land_spec by assumption.
  destruct (Z.leb_spec lo n) as [L | L].
  - rewrite !Z.testbit_ones_nonneg by lia.
    destruct (Z.ltb_spec (n - lo) w) as [U | U];
      destruct (Z.ltb_spec n (lo + w)) as [U' | U']; try lia; simpl.
    + rewrite andb_false_r, andb_true_r. reflexivity.
    + rewrite andb_true_r, andb_false_r, orb_false_r. reflexivity.
  - rewrite !(Z.testbit_neg_r _ (n - lo)) by lia. simpl.
    rewrite andb_true_r, orb_false_r. reflexivity.
Qed.

Lemma testbit_field_get (v lo w n : Z) :
  0 <= lo -> 0 <= w -> 0 <= n ->
  Z.testbit (field_get v lo w) n = (n <? w) && Z.testbit v (n + lo).
Proof.
  intros Hlo Hw Hn. unfold field_get.
  rewrite Z.land_spec, Z.shiftr_spec, Z.testbit_ones_nonneg by assumption.
  apply andb_comm.
Qed.

Lemma field_get_set_same (v lo w x : Z) :
  0 <= lo -> 0 <= w ->
  field_get (field_set v lo w x) lo w = x mod 2 ^ w.
Proof.
  intros Hlo Hw. rewrite <- Z.land_ones by assumption.
  apply Z.bits_inj'. intros n Hn.
  rewrite testbit_field_get, testbit_field_set by lia.
  rewrite Z.land_spec, Z.testbit_ones_nonneg by assumption.
  destruct (Z.ltb_spec n w) as [U | U]; simpl.
  - replace (lo <=? n + lo) with true by (symmetry; apply Z.leb_le; lia).
    replace (n + lo <? lo + w) with true by (symmetry; apply Z.ltb_lt; lia).
    simpl. rewrite andb_true_r. f_equal. lia.
  - rewrite andb_false_r. reflexivity.
Qed.

Lemma field_get_set_other (v lo w x lo' w' : Z) :
  0 <= lo -> 0 <= w -> 0 <= lo' -> 0 <= w' ->
  lo' + w' <= lo \/ lo + w <= lo' ->
  field_get (field_set v lo w x) lo' w' = field_get v lo' w'.
Proof.
  intros Hlo Hw Hlo' Hw' Hdisj.
  apply Z.bits_inj'. intros n Hn.
  rewrite !testbit_field_get, testbit_field_set by lia.
  destruct (Z.ltb_spec n w') as [U | U]; simpl; [|reflexivity].
  replace ((lo <=? n + lo') && (n + lo' <? lo + w)) with false; [reflexivity|].
  symmetry. apply andb_false_iff.
  destruct Hdisj; [left; apply Z.leb_gt | right; apply Z.ltb_ge]; lia.
Qed.

Lemma field_set_range (v lo w x : Z) :
  0 <= lo -> 0 <= w -> lo + w <= 32 ->
  0 <= v < 2 ^ 32 -> 0 <= field_set v lo w x < 2 ^ 32.
Proof.
  intros Hlo Hw Hfit Hv.
  assert (Hbits : forall n, 32 <= n -> Z.testbit (field_set v lo w x) n = false).
  { intros n Hn. rewrite testbit_field_set by lia.
    replace ((lo <=? n) && (n <? lo + w)) with false.
    - destruct (Z.eq_dec v 0) as [-> | Hnz]; [apply Z.bits_0|].
      apply Z.bits_above_log2; [lia|].
      assert (Z.log2 v < 32) by (apply Z.log2_lt_pow2; lia). lia.
    - symmetry. apply andb_false_iff. right. apply Z.ltb_ge. lia. }
  assert (Hnn : 0 <= field_set v lo w x).
  { unfold field_set. apply Z.lor_nonneg. split.
    - apply Z.ldiff_nonneg. left. lia.
    - apply Z.shiftl_nonneg. apply Z.land_nonneg. right.
      rewrite Z.ones_equiv.
      pose proof (Z.pow_pos_nonneg 2 w ltac:(lia) Hw). lia. }
  split; [exact Hnn|].
  destruct (Z.eq_dec (field_set v lo w x) 0) as [E | Hnz]; [rewrite E; lia|].
  apply Z.log2_lt_pow2; [lia|].
  destruct (Z.lt_ge_cases (Z.log2 (field_set v lo w x)) 32) as [? | Hge];
    [assumption|].
  pose proof (Z.bit_log2 (field_set v lo w x) ltac:(lia)) as Hb.
  rewrite (Hbits _ Hge) in Hb. discriminate.
Qed.

Variable rpi_pm_base : Z.
Variable dectoul : String.string -> Z.
Variable CMD_RET_USAGE : Z.
Variable env : list event -> Z.

Local Abbreviation run := (do_gpio_drive_strength rpi_pm_base dectoul CMD_RET_USAGE env).
Local Abbreviation arg := (int_arg dectoul).

(** X15. The command touches no register unless its arguments are
    valid.  With an argument count other than 5 it returns
    [CMD_RET_USAGE]; with a pad outside 0..3, a slew or a hysteresis
    outside 0..1 or a drive outside 0..7 it returns -1; in both cases
    nothing is read and nothing is written. *)
Theorem drive_strength_rejects (argc : Z) (argv : list String.string)
    (tr : list event) :
  (argc <> 5 -> run argc argv tr = (CMD_RET_USAGE, tr))
  /\ (argc = 5 ->
      ~ (0 <= arg argv 1 <= 3 /\ 0 <= arg argv 2 <= 1
         /\ 0 <= arg argv 3 <= 1 /\ 0 <= arg argv 4 <= 7) ->
      run argc argv tr = (-1, tr)).
Proof.
  unfold do_gpio_drive_strength, out_of. split.
  - intros H. apply Z.eqb_neq in H. rewrite H. reflexivity.
  - intros H Hbad. subst argc. cbn [Z.eqb Pos.eqb negb]. cbv zeta.
    repeat match goal with
           | |- context [(?x <? ?lo) || (?x >? ?hi)] =>
               destruct (Z.ltb_spec x lo); destruct (Z.gtb_spec x hi);
               cbn [orb]; try reflexivity
           end.
    exfalso. apply Hbad. lia.
Qed.

(** X16. With valid arguments the command reads the pad's register once
    and writes it once, at [rpi_pm_base + 0x2c + 4 * pad], and returns
    0.  The word written has the password 0x5a in bits 31..24, the
    given slew, hysteresis and drive in bits 4, 3 and 2..0, and bits
    23..5 as they were read; it is a 32-bit word when the word read
    is. *)
Theorem drive_strength_read_modify_write (argv : list String.string)
    (tr : list event) :
  0 <= arg argv 1 <= 3 ->
  0 <= arg argv 2 <= 1 ->
  0 <= arg argv 3 <= 1 ->
  0 <= arg argv 4 <= 7 ->
  let addr := rpi_pm_base + 0x2c + 4 * arg argv 1 in
  let old := env (tr ++ [Readl addr]) in
  exists new,
    run 5 argv tr = (0, tr ++ [Readl addr; Writel new addr])
    /\ get_password new = 0x5a
    /\ get_slew new = arg argv 2
    /\ get_hyst new = arg argv 3
    /\ get_drive new = arg argv 4
    /\ get_reserved new = get_reserved old
    /\ (0 <= old < 2 ^ 32 -> 0 <= new < 2 ^ 32).
Proof.
  intros Hpad Hslew Hhyst Hdrive addr old.
  exists (set_password
            (set_drive (set_hyst (set_slew old (arg argv 2)) (arg argv 3))
                       (arg argv 4)) 0x5a).
  split.
  { unfold do_gpio_drive_strength, out_of. cbn [Z.eqb Pos.eqb negb].
    cbv zeta.
    replace ((arg argv 1 <? 0) || (arg argv 1 >? 3)) with false
      by (symmetry; apply orb_false_iff; lia).
    replace ((arg argv 2 <? 0) || (arg argv 2 >? 1)) with false
      by (symmetry; apply orb_false_iff; lia).
    replace ((arg argv 3 <? 0) || (arg argv 3 >? 1)) with false
      by (symmetry; apply orb_false_iff; lia).
    replace ((arg argv 4 <? 0) || (arg argv 4 >? 7)) with false
      by (symmetry; apply orb_false_iff; lia).
    unfold bind, print_pad_value, set_pad_value, ret, padctrl_addr,
      BCM283X_PADCTRL_ADDRESS.
    fold addr. fold old. rewrite <- app_assoc. reflexivity. }
  unfold get_password, get_slew, get_hyst, get_drive, get_reserved,
    set_password, set_slew, set_hyst, set_drive.
  split; [rewrite field_get_set_same by lia; reflexivity|].
  split.
  { rewrite !field_get_set_other by lia.
    rewrite field_get_set_same by lia. apply Z.mod_small. lia. }
  split.
  { rewrite !field_get_set_other by lia.
    rewrite field_get_set_same by lia. apply Z.mod_small. lia. }
  split.
  { rewrite field_get_set_other by lia.
    rewrite field_get_set_same by lia. apply Z.mod_small. lia. }
  split.
  { rewrite !field_get_set_other by lia. reflexivity. }
  intros Hold. repeat (apply field_set_range; try lia).
Qed.

End PadFacts.

(** ** The further properties on concrete boards *)

Section MoreExamples.

Import I2cBitbang Wire Observe Lp5569 Expected.

Lemma i2c_init_all_or_nothing_witness :
  exists evs,
    I2cBitbang.i2c_init no_device [] = ((0, bus0), [] ++ evs)
    /\ held no_device [] evs [] = [2; 3].
Proof.
  destruct (i2c_init_all_or_nothing no_device [])
    as (r & evs & E & _ & Hheld & _).
  assert (Hr : r = 0).
  { assert (F : fst (fst (I2cBitbang.i2c_init no_device [])) = r)
      by (rewrite E; reflexivity).
    vm_compute in F. symmetry. exact F. }
  subst r. exists evs. split; [exact E | apply Hheld; reflexivity].
Defined.

Lemma i2c_deinit_first_failure_witness :
  sda bus0 <> scl bus0
  /\ exists evs,
       I2cBitbang.i2c_deinit no_device bus0 [] = (0, [] ++ evs)
       /\ held no_device [] evs [sda bus0; scl bus0] = [].
Proof.
  assert (pins : sda bus0 <> scl bus0) by (vm_compute; lia).
  split; [exact pins|].
  destruct (i2c_deinit_first_failure no_device bus0 [] pins)
    as (r & evs & E & _ & Hheld & _).
  assert (Hr : r = 0).
  { assert (F : fst (I2cBitbang.i2c_deinit no_device bus0 []) = r)
      by (rewrite E; reflexivity).
    vm_compute in F. symmetry. exact F. }
  subst r. exists evs. split; [exact E | apply Hheld; reflexivity].
Defined.

Lemma write_byte_nine_clocks_witness :
  sda bus0 <> scl bus0
  /\ exists nack evs,
       i2c_write_byte no_device bus0 0xA5 [] = (nack, [] ++ evs)
       /\ clock_rises bus0 true evs = 9%nat
       /\ total_delay evs = 39 * delay bus0.
Proof.
  assert (pins : sda bus0 <> scl bus0) by (vm_compute; lia).
  split; [exact pins|].
  destruct (write_byte_nine_clocks no_device bus0 pins 0xA5 [] true)
    as (nack & evs & E & R & _ & D).
  exists nack, evs. auto.
Defined.

Lemma set_register_cost_witness :
  sda bus0 <> scl bus0
  /\ exists r k evs,
       I2cBitbang.i2c_set_register no_device bus0 0x64 0x3F 0xFF [] = (r, [] ++ evs)
       /\ clock_rises bus0 true evs = (9 * k + 1)%nat
       /\ total_delay evs = (8 + 39 * Z.of_nat k) * delay bus0.
Proof.
  assert (pins : sda bus0 <> scl bus0) by (vm_compute; lia).
  split; [exact pins|].
  destruct (set_register_cost no_device bus0 pins 0x64 0x3F 0xFF [])
    as (r & k & evs & E & _ & _ & _ & R & D).
  exists r, k, evs. auto.
Defined.

Lemma chip_calls_disciplined_witness :
  sda bus0 <> scl bus0
  /\ emits (disciplined bus0) zero_or_minus_one
           (lp5569_init (board := gpio_board no_device (fun z => z)) bus0).
Proof.
  assert (pins : sda bus0 <> scl bus0) by (vm_compute; lia).
  split; [exact pins|].
  destruct (chip_calls_disciplined no_device (fun z => z) bus0 pins) as (H & _).
  exact H.
Defined.

Lemma cmd_releases_pins_witness :
  (forall h gpio, no_device (h ++ [EvFree gpio]) = 0)
  /\ exists evs,
       snd (lp5569_cmd (board := gpio_board no_device (fun z => z)) 0 []) =
         [] ++ evs
       /\ held no_device [] evs [] = [].
Proof.
  assert (H : forall h gpio, no_device (h ++ [EvFree gpio]) = 0).
  { intros h gpio. unfold no_device. rewrite last_last. reflexivity. }
  split; [exact H|].
  apply (cmd_releases_pins no_device (fun z => z) 0 [] H).
Defined.

Lemma same_inputs_failing_outputs (env : trace -> Z) :
  same_inputs env (failing_outputs env).
Proof.
  intros h e He. unfold failing_outputs. rewrite last_last.
  destruct e; try reflexivity. exfalso. apply (He gpio value). reflexivity.
Qed.

Lemma set_register_ignores_output_errors_witness :
  same_inputs (nack_at 2) (failing_outputs (nack_at 2))
  /\ I2cBitbang.i2c_set_register (nack_at 2) bus0 0x64 0x3F 0xFF [] =
     I2cBitbang.i2c_set_register (failing_outputs (nack_at 2)) bus0 0x64 0x3F 0xFF [].
Proof.
  pose proof (same_inputs_failing_outputs (nack_at 2)) as H.
  split; [exact H|].
  apply (set_register_ignores_output_errors _ _ bus0 H).
Defined.

Lemma gpio_read_levels_witness :
  gpio_read failing_inputs 2 [] = (-5, [] ++ [EvDirIn 2])
  /\ fst (gpio_read no_device 2 []) = 1.
Proof.
  split.
  - destruct (gpio_read_levels failing_inputs 2 []) as (H & _).
    apply H. vm_compute. discriminate.
  - destruct (gpio_read_levels no_device 2 []) as (_ & H).
    destruct (H ltac:(reflexivity)) as (_ & _ & Hv & _).
    rewrite Hv; [reflexivity | right; reflexivity].
Defined.

Lemma set_register_input_failure_witness :
  (forall h gpio, failing_inputs (h ++ [EvDirIn gpio]) <> 0)
  /\ fst (I2cBitbang.i2c_set_register failing_inputs bus0 0x64 0x3F 0xFF []) = -1.
Proof.
  assert (H : forall h gpio, failing_inputs (h ++ [EvDirIn gpio]) <> 0).
  { intros h gpio. unfold failing_inputs. rewrite last_last. discriminate. }
  split; [exact H|].
  rewrite (set_register_input_failure failing_inputs bus0 0x64 0x3F 0xFF [] H).
  reflexivity.
Defined.

Lemma init_write_sequence_witness :
  lp5569_init (board := Mock.board Mock.healthy (fun z => z)) tt [] =
  (0, [] ++ events init_writes).
Proof.
  pose proof (init_write_sequence Mock.healthy (fun z => z) []) as H.
  cbv zeta in H. destruct H as (_ & _ & H & _).
  apply H. intros j _. reflexivity.
Defined.

Lemma run_program_first_failure_witness :
  (length (nth 0 led_mux_tapes []) <= 32)%nat
  /\ (length led_prog <= 32)%nat
  /\ lp5569_run_program (board := Mock.board Mock.refuses_load (fun z => z)) tt
       (nth 0 led_mux_tapes []) (Z.of_nat (length (nth 0 led_mux_tapes [])))
       led_prog (Z.of_nat (length led_prog)) []
     = (-1, [Mock.W 0x02 0x54]).
Proof.
  assert (H1 : (length (nth 0 led_mux_tapes []) <= 32)%nat)
    by (vm_compute; lia).
  assert (H2 : (length led_prog <= 32)%nat) by (vm_compute; lia).
  split; [exact H1|]. split; [exact H2|].
  pose proof (run_program_first_failure Mock.refuses_load (fun z => z)
                (nth 0 led_mux_tapes []) led_prog [] 1 H1 H2) as H.
  cbv zeta in H. rewrite H.
  - reflexivity.
  - vm_compute. lia.
  - intros j Hj. lia.
  - vm_compute. discriminate.
Defined.

Lemma cmd_init_and_teardown_witness :
  exists mid,
    snd (lp5569_cmd (board := Mock.board Mock.absent_chip (fun z => z)) 0 []) =
      [Mock.Init] ++ mid ++ [Mock.Deinit]
    /\ Forall chip_event mid.
Proof.
  destruct (cmd_init_and_teardown Mock.absent_chip (fun z => z) 0) as (_ & H).
  apply H. reflexivity.
Defined.

Lemma cmd_operational_error_first_witness :
  fst (lp5569_cmd (board := Mock.board absent_chip_stuck_bus (fun z => z)) 0 [])
  = -1.
Proof.
  pose proof (cmd_operational_error_first absent_chip_stuck_bus (fun z => z) 0)
    as H.
  cbv zeta in H. rewrite H.
  - vm_compute. reflexivity.
  - reflexivity.
  - vm_compute. discriminate.
  - vm_compute. discriminate.
Defined.

End MoreExamples.

Section PadExamples.

Import PadCtrl.
Import String.

Lemma drive_strength_rejects_witness :
  do_gpio_drive_strength 0 decimal (-1) (fun _ => 0) 5
    ["gpio_drive_strength"%string; "4"%string; "1"%string; "0"%string; "3"%string] []
  = (-1, []).
Proof.
  destruct (drive_strength_rejects 0 decimal (-1) (fun _ => 0) 5
              ["gpio_drive_strength"%string; "4"%string; "1"%string; "0"%string; "3"%string] []) as (_ & H).
  apply H; [reflexivity|]. vm_compute. intros (H1 & _). destruct H1 as [_ H1].
  apply H1. reflexivity.
Defined.

Lemma drive_strength_read_modify_write_witness :
  exists new,
    do_gpio_drive_strength 0x3f100000 decimal (-1) (fun _ => 0x5a000013) 5
      ["gpio_drive_strength"%string; "2"%string; "1"%string; "0"%string; "7"%string] []
    = (0, [] ++ [Readl (0x3f100000 + 0x2c + 4 * 2);
                 Writel new (0x3f100000 + 0x2c + 4 * 2)])
    /\ get_drive new = 7
    /\ get_slew new = 1.
Proof.
  pose proof (drive_strength_read_modify_write 0x3f100000 decimal (-1)
                (fun _ => 0x5a000013)
                ["gpio_drive_strength"%string; "2"%string; "1"%string; "0"%string; "7"%string] []) as H.
  cbv zeta in H.
  destruct H as (new & E & _ & Hs & _ & Hd & _);
    try (vm_compute; split; discriminate).
  exists new. split; [exact E|]. split; [exact Hd | exact Hs].
Defined.

End PadExamples.
